(** * Verification of the panel-state editor of mc4-panel-MVP (src/src/App.jsx)

    The JavaScript numbers of the source are IEEE binary64 doubles; the
    geometry below uses Rocq's primitive floats, which are binary64 with
    round-to-nearest-even, so the float parts compute exactly as the
    browser does.  The panel-state mapping (a JS object keyed by panel
    index) is a [gmap nat panel_state]. *)

From Stdlib Require Import Floats ZArith Lia String Sorted.
From stdpp Require Import base gmap list.

(* ------------------------------------------------------------------ *)
(** ** Panel end states (PANEL_STATES) *)

(** [PANEL_STATES.NONE] is [null] (and a missing key reads as [undefined]);
    both are [None] here.  [Some MC4_INSTALLED] is ['mc4'] and
    [Some TERMINATED] is ['terminated']. *)
Inductive end_state := MC4_INSTALLED | TERMINATED.

#[global] Instance end_state_eq_dec : EqDecision end_state.
Proof. solve_decision. Defined.

(** A panel's entry of [panelStates]: [{ left: state, right: state }]. *)
Record panel_state := { left_st : option end_state; right_st : option end_state }.

Inductive side := SideLeft | SideRight.

(** [prev[index]?.[side]] *)
Definition get_side (st : option panel_state) (s : side) : option end_state :=
  match st with
  | None => None
  | Some p => match s with SideLeft => left_st p | SideRight => right_st p end
  end.

(** [{ ...prev[index], [side]: v }] *)
Definition set_side (st : option panel_state) (s : side) (v : option end_state) : panel_state :=
  match s with
  | SideLeft => {| left_st := v; right_st := get_side st SideRight |}
  | SideRight => {| left_st := get_side st SideLeft; right_st := v |}
  end.

Abbreviation panel_states := (gmap nat panel_state).

(* ------------------------------------------------------------------ *)
(** ** Transitions *)

(** Single click: [NONE -> MC4_INSTALLED -> TERMINATED -> NONE]
    (handleMouseUp's panel-click branch and handlePanelClick). *)
Definition click_cycle (v : option end_state) : option end_state :=
  match v with
  | None => Some MC4_INSTALLED
  | Some MC4_INSTALLED => Some TERMINATED
  | Some TERMINATED => None
  end.

(** Box selection, select gesture (applySelection, [unselect = false]):
    [NONE -> MC4_INSTALLED -> TERMINATED], TERMINATED stays. *)
Definition select_forward (v : option end_state) : option end_state :=
  match v with
  | None => Some MC4_INSTALLED
  | Some MC4_INSTALLED => Some TERMINATED
  | Some TERMINATED => Some TERMINATED
  end.

(** The new entry of one selected panel in applySelection. *)
Definition select_entry (unselect : bool) (cur : option panel_state) : panel_state :=
  if unselect then {| left_st := None; right_st := None |}
  else {| left_st := select_forward (get_side cur SideLeft);
          right_st := select_forward (get_side cur SideRight) |}.

(** The [setPanelStates] updater of handleMouseUp's panel-click branch. *)
Definition mouse_up_click_states (panelIndex : nat) (s : side) (prev : panel_states)
  : panel_states :=
  <[panelIndex := set_side (prev !! panelIndex) s
                    (click_cycle (get_side (prev !! panelIndex) s))]> prev.

(** The [setPanelStates] updater of handlePanelClick; [detail] is [e.detail]. *)
Definition handle_panel_click_states (detail : nat) (index : nat) (s : side)
    (prev : panel_states) : panel_states :=
  let newState :=
    if 2 <=? detail then Some TERMINATED
    else click_cycle (get_side (prev !! index) s) in
  <[index := set_side (prev !! index) s newState]> prev.

(** The [setPanelStates] updater of applySelection: the loop over
    [panelsData.features] ([seq 0 n]), returning [newStates] and
    [anySelected]. *)
Definition selection_body (inSel : nat -> bool) (unselect : bool) (prev : panel_states)
    (acc : panel_states * bool) (i : nat) : panel_states * bool :=
  if inSel i then (<[i := select_entry unselect (prev !! i)]> acc.1, true) else acc.

Definition apply_selection_states (inSel : nat -> bool) (unselect : bool) (n : nat)
    (prev : panel_states) : panel_states * bool :=
  foldl (selection_body inSel unselect prev) (prev, false) (seq 0 n).

(* ------------------------------------------------------------------ *)
(** ** Aggregate counters (the [mc4] / [termination] useMemo) *)

Record counter := { total : Z; completed : Z; remaining : Z }.

Definition mc4_done (v : option end_state) : Z :=
  match v with
  | Some MC4_INSTALLED | Some TERMINATED => 1
  | None => 0
  end.

Definition terminated_done (v : option end_state) : Z :=
  match v with Some TERMINATED => 1 | _ => 0 end.

(** [Object.values(panelStates).forEach(...)] *)
Definition mc4Completed (m : panel_states) : Z :=
  map_fold (fun _ st acc => acc + mc4_done (left_st st) + mc4_done (right_st st))%Z 0%Z m.

Definition terminatedCompleted (m : panel_states) : Z :=
  map_fold (fun _ st acc =>
              acc + terminated_done (left_st st) + terminated_done (right_st st))%Z 0%Z m.

(** [totalPanels] is [panelsData.features.length]. *)
Definition counters (totalPanels : nat) (m : panel_states) : counter * counter :=
  let totalEnds := (Z.of_nat totalPanels * 2)%Z in
  ({| total := totalEnds; completed := mc4Completed m;
      remaining := totalEnds - mc4Completed m |},
   {| total := totalEnds; completed := terminatedCompleted m;
      remaining := totalEnds - terminatedCompleted m |}).

(* ------------------------------------------------------------------ *)
(** ** History (panelStates, history, historyIndex) *)

Record app_state := {
  panelStates : panel_states;
  history : list panel_states;
  historyIndex : nat
}.

(** [useState({})], [useState([{}])], [useState(0)] *)
Definition init_state : app_state :=
  {| panelStates := ∅; history := [∅]; historyIndex := 0 |}.

(** [newHistory = history.slice(0, historyIndex + 1); newHistory.push(newStates);
    setHistory(newHistory); setHistoryIndex(newHistory.length - 1)] together
    with the updater returning [newStates]. *)
Definition push (newStates : panel_states) (s : app_state) : app_state :=
  let newHistory := take (historyIndex s + 1) (history s) ++ [newStates] in
  {| panelStates := newStates; history := newHistory;
     historyIndex := length newHistory - 1 |}.

(** [undo]; [history[i]] is read with [default ∅], the index being in range
    on every reachable state. *)
Definition undo (s : app_state) : app_state :=
  if 0 <? historyIndex s then
    {| panelStates := default ∅ (history s !! (historyIndex s - 1));
       history := history s; historyIndex := historyIndex s - 1 |}
  else s.

(** [redo] *)
Definition redo (s : app_state) : app_state :=
  if historyIndex s <? length (history s) - 1 then
    {| panelStates := default ∅ (history s !! (historyIndex s + 1));
       history := history s; historyIndex := historyIndex s + 1 |}
  else s.

(* ------------------------------------------------------------------ *)
(** ** Float geometry (JS numbers as binary64) *)

Module Geometry.
Local Open Scope float_scope.
#[local] Set Warnings "-inexact-float".

(** [{ x, y }] *)
Record point := { px : float; py : float }.

(** [boundsRef.current] *)
Record bounds := { minLng : float; maxLng : float; minLat : float; maxLat : float }.

(** [Math.min] / [Math.max] on two numbers: NaN wins, [-0 < +0]. *)
Definition js_min (a b : float) : float :=
  if is_nan a || is_nan b then nan
  else if a <? b then a else if b <? a then b else if get_sign a then a else b.

Definition js_max (a b : float) : float :=
  if is_nan a || is_nan b then nan
  else if a <? b then b else if b <? a then a else if get_sign a then b else a.

(** [Math.hypot(x, y)]: an infinite argument gives [+Infinity], otherwise
    the square root of the sum of squares (the ECMAScript specification
    leaves the rounding of the result to the implementation). *)
Definition hypot (x y : float) : float :=
  if is_infinity x || is_infinity y then infinity else sqrt (x * x + y * y).

(** The truthiness of a number in [a || b]: [0], [-0] and [NaN] are falsy. *)
Definition js_or_num (a b : float) : float :=
  if is_nan a || (a =? 0) then b else a.

(** [n] as a JS number (exact below 2^53). *)
Fixpoint float_of_nat (n : nat) : float :=
  match n with O => 0 | S k => float_of_nat k + 1 end.

(** toSvgCoords; [None] is [boundsRef.current === null]; [w], [h] are
    [canvasSize.width], [canvasSize.height]. *)
Definition toSvgCoords (b : option bounds) (w h : float) (lng lat : float) : point :=
  match b with
  | None => {| px := 0; py := 0 |}
  | Some bd =>
      {| px := ((lng - minLng bd) / (maxLng bd - minLng bd)) * w;
         py := ((maxLat bd - lat) / (maxLat bd - minLat bd)) * h |}
  end.


(** [Math.min(...xs)] and [Math.max(...xs)]: folds from [+Infinity] and
    [-Infinity]. *)
Definition js_min_list (xs : list float) : float := fold_left js_min xs infinity.
Definition js_max_list (xs : list float) : float := fold_left js_max xs neg_infinity.

(** The bounds set by the loading effect from [allCoords], padded by
    [0.001]; [None] when [allCoords] is empty ([boundsRef.current] is then
    left unset). *)
Definition padding : float := 0.001.

Definition computeBounds (allCoords : list (float * float)) : option bounds :=
  match allCoords with
  | [] => None
  | _ =>
      let lngs := map fst allCoords in
      let lats := map snd allCoords in
      Some {| minLng := js_min_list lngs - padding; maxLng := js_max_list lngs + padding;
              minLat := js_min_list lats - padding; maxLat := js_max_list lats + padding |}
  end.

(** [uniqueCoords]: the closing vertex is dropped when it repeats the
    first one within [1e-9]. *)
Definition uniqueCoords (coords : list (float * float)) : list (float * float) :=
  match coords, last coords with
  | c0 :: _, Some cl =>
      if (abs (c0.1 - cl.1) <? 1e-9) && (abs (c0.2 - cl.2) <? 1e-9)
      then removelast coords else coords
  | _, _ => coords
  end.

Record edge := { p1 : point; p2 : point; len : float; center : point }.

Definition mk_edge (a b : point) : edge :=
  {| p1 := a; p2 := b; len := hypot (px b - px a) (py b - py a);
     center := {| px := (px a + px b) / 2; py := (py a + py b) / 2 |} |}.

(** [for (i = 0; i < n; i++) edges.push(edge(pts[i], pts[(i + 1) % n]))] *)
Definition edges_of (pts : list point) : list edge :=
  zip_with mk_edge pts (drop 1 pts ++ take 1 pts).

(** [Array.prototype.sort] with comparator [cmp]: a stable sort (as
    ECMAScript 2019 requires) where [b] is placed before [a] only when
    [cmp(b, a) < 0]. *)
Section JsSort.
Context {A : Type} (cmp : A -> A -> float).

Fixpoint js_insert (x : A) (l : list A) : list A :=
  match l with
  | [] => [x]
  | y :: ys => if cmp y x <? 0 then y :: js_insert x ys else x :: y :: ys
  end.

Fixpoint js_sort (l : list A) : list A :=
  match l with
  | [] => []
  | x :: xs => js_insert x (js_sort xs)
  end.
End JsSort.

Definition by_len (a b : edge) : float := len a - len b.

Definition by_center (a b : edge) : float :=
  js_or_num (px (center a) - px (center b)) (py (center a) - py (center b)).

Record panel_ends := {
  end_left : point; end_right : point; end_center : point; allPoints : list point
}.

(** The arithmetic mean of the vertices, [reduce] from [0] left to right. *)
Definition centroid (pts : list point) : point :=
  {| px := foldl (fun s p => s + px p) 0 pts / float_of_nat (length pts);
     py := foldl (fun s p => s + py p) 0 pts / float_of_nat (length pts) |}.

(** The panel-end resolver on canvas points (the body of getPanelEnds
    after [svgPts] is built); [shortEdges[k]?.center || center]. *)
Definition panel_ends_of_points (svgPts : list point) : panel_ends :=
  let shortEdges := js_sort by_center (take 2 (js_sort by_len (edges_of svgPts))) in
  let c := centroid svgPts in
  {| end_left := default c (center <$> shortEdges !! 0%nat);
     end_right := default c (center <$> shortEdges !! 1%nat);
     end_center := c; allPoints := svgPts |}.

(** getPanelEnds; [features] lists the coordinates of
    [panelsData.features]. *)
Definition getPanelEnds (features : list (list (float * float))) (b : option bounds)
    (w h : float) (panelIndex : nat) : option panel_ends :=
  match features !! panelIndex with
  | None => None
  | Some coords =>
      Some (panel_ends_of_points
              (map (fun c => toSvgCoords b w h c.1 c.2) (uniqueCoords coords)))
  end.

(** The guard of the Panel component: it renders nothing when this is false. *)
Definition panel_renders (coords : list (float * float)) : bool :=
  negb (length coords <? 2)%nat.

Definition isPointInBox (p : point) (minX maxX minY maxY : float) : bool :=
  (minX <=? px p) && (px p <=? maxX) && (minY <=? py p) && (py p <=? maxY).

Definition orient (a b c : point) : float :=
  (py b - py a) * (px c - px b) - (px b - px a) * (py c - py b).

Definition onSegment (eps : float) (a b c : point) : bool :=
  (js_min (px a) (px b) - eps <=? px c) && (px c <=? js_max (px a) (px b) + eps) &&
  (js_min (py a) (py b) - eps <=? py c) && (py c <=? js_max (py a) (py b) + eps).

Definition segmentsIntersect (q p2 r1 r2 : point) : bool :=
  let eps := 1e-6 in
  let o1 := orient q p2 r1 in
  let o2 := orient q p2 r2 in
  let o3 := orient r1 r2 q in
  let o4 := orient r1 r2 p2 in
  if (abs o1 <? eps) && onSegment eps q p2 r1 then true
  else if (abs o2 <? eps) && onSegment eps q p2 r2 then true
  else if (abs o3 <? eps) && onSegment eps r1 r2 q then true
  else if (abs o4 <? eps) && onSegment eps r1 r2 p2 then true
  else negb (Bool.eqb (0 <? o1) (0 <? o2)) && negb (Bool.eqb (0 <? o3) (0 <? o4)).

(** isPointInPolygon: [j] runs one step behind [i], starting at the last
    vertex. *)
Definition isPointInPolygon (p : point) (poly : list point) : bool :=
  let prevs := match last poly with Some l => l :: removelast poly | None => [] end in
  foldl (fun inside '(pi, pj) =>
           let intersect :=
             negb (Bool.eqb (py p <? py pi) (py p <? py pj)) &&
             (px p <? (px pj - px pi) * (py p - py pi) / (py pj - py pi + 1e-9) + px pi) in
           if intersect then negb inside else inside)
        false (zip poly prevs).

(** isPanelInSelection *)
Definition isPanelInSelection (features : list (list (float * float))) (b : option bounds)
    (w h : float) (panelIndex : nat) (selStart selEnd : point) : bool :=
  match getPanelEnds features b w h panelIndex with
  | None => false
  | Some ends =>
      let pts := allPoints ends in
      match pts with
      | [] => false
      | _ =>
          let minX := js_min (px selStart) (px selEnd) in
          let maxX := js_max (px selStart) (px selEnd) in
          let minY := js_min (py selStart) (py selEnd) in
          let maxY := js_max (py selStart) (py selEnd) in
          let rectCorners := [ {| px := minX; py := minY |}; {| px := maxX; py := minY |};
                               {| px := maxX; py := maxY |}; {| px := minX; py := maxY |} ] in
          let rectEdges := zip rectCorners (drop 1 rectCorners ++ take 1 rectCorners) in
          existsb (fun q => isPointInBox q minX maxX minY maxY) pts
          || existsb (fun c => isPointInPolygon c pts) rectCorners
          || existsb (fun '(a, bb) =>
                        existsb (fun '(r1, r2) => segmentsIntersect a bb r1 r2) rectEdges)
                     (zip pts (drop 1 pts ++ take 1 pts))
      end
  end.

End Geometry.

(* ------------------------------------------------------------------ *)
(** ** Event handlers on the application state *)

Module Handlers.
Import Geometry.
Local Open Scope float_scope.
#[local] Set Warnings "-inexact-float".

(** The loaded panel data: [panelsData.features] (coordinates only),
    [boundsRef.current] and [canvasSize]. *)
Record scene := {
  features : list (list (float * float));
  sceneBounds : option bounds;
  canvasW : float;
  canvasH : float
}.

(** applySelection(selStart, selEnd, unselect). *)
Definition applySelection (sc : scene) (selStart selEnd : point) (unselect : bool)
    (s : app_state) : app_state :=
  let dx := abs (px selEnd - px selStart) in
  let dy := abs (py selEnd - py selStart) in
  if (dx <? 0.05) && (dy <? 0.05) then s
  else
    let '(newStates, anySelected) :=
      apply_selection_states
        (fun i => isPanelInSelection (features sc) (sceneBounds sc) (canvasW sc) (canvasH sc)
                    i selStart selEnd)
        unselect (length (features sc)) (panelStates s) in
    if anySelected then push newStates s
    else {| panelStates := newStates; history := history s; historyIndex := historyIndex s |}.

(** The panel-click branch of handleMouseUp: [click] is [selectionStart],
    [panelIndex] is [clickedElement.dataset.panelIndex]. *)
Definition mouseUpPanelClick (sc : scene) (panelIndex : nat) (click : point)
    (s : app_state) : app_state :=
  match getPanelEnds (features sc) (sceneBounds sc) (canvasW sc) (canvasH sc) panelIndex with
  | None => s
  | Some ends =>
      let distLeft := hypot (px click - px (end_left ends)) (py click - py (end_left ends)) in
      let distRight := hypot (px click - px (end_right ends)) (py click - py (end_right ends)) in
      let sd := if distLeft <? distRight then SideLeft else SideRight in
      push (mouse_up_click_states panelIndex sd (panelStates s)) s
  end.

(** handleMouseUp outside note mode, after a mousedown at [selStart]
    (button [0], or [2] for [unselect]) on the element carrying
    [clickedPanel] as [data-panel-index] (if any) and a release at
    [selEnd]. *)
Definition handleMouseUp (sc : scene) (clickedPanel : option nat) (selStart selEnd : point)
    (unselect : bool) (s : app_state) : app_state :=
  let dx := abs (px selEnd - px selStart) in
  let dy := abs (py selEnd - py selStart) in
  let isClick := (dx <? 0.05) && (dy <? 0.05) in
  match clickedPanel with
  | Some i => if isClick then mouseUpPanelClick sc i selStart s
              else applySelection sc selStart selEnd unselect s
  | None => applySelection sc selStart selEnd unselect s
  end.

(** handlePanelClick(e, index, side) outside note mode; [detail] is
    [e.detail].  No element of App.jsx has it as a handler. *)
Definition handlePanelClick (detail : nat) (index : nat) (sd : side) (s : app_state)
  : app_state :=
  push (handle_panel_click_states detail index sd (panelStates s)) s.

(** The mutations a user can trigger on the panel state: a mouse release
    over the canvas (the pressed element is a rendered panel polygon, whose
    [data-panel-index] is below the feature count, or no panel), and the
    undo and redo buttons. *)
Inductive step (sc : scene) : app_state -> app_state -> Prop :=
  | step_mouse_up_panel s i coords selStart selEnd unselect :
      features sc !! i = Some coords -> panel_renders coords = true ->
      step sc s (handleMouseUp sc (Some i) selStart selEnd unselect s)
  | step_mouse_up_background s selStart selEnd unselect :
      step sc s (handleMouseUp sc None selStart selEnd unselect s)
  | step_undo s : step sc s (undo s)
  | step_redo s : step sc s (redo s).

Definition reachable (sc : scene) (s : app_state) : Prop := rtc (step sc) init_state s.

End Handlers.

(* ------------------------------------------------------------------ *)
(** ** Note layer *)

Module Notes.
Import Geometry.
Local Open Scope float_scope.
#[local] Set Warnings "-inexact-float".

(** [{ id, svgX, svgY, text }]; [id] is [Date.now()] at creation. *)
Record note := { note_id : Z; svgX : float; svgY : float; text : string }.

(** [notes], [editingNote], [selectedNotes] (a Set of ids, kept as the list
    of ids in note order). *)
Record note_ui := {
  notes : list note;
  editingNote : option note;
  selectedNotes : list Z
}.

(** [clickRadius] *)
Definition clickRadius : float := 5.

(** The note-mode branch of handleMouseUp: mousedown at [start]
    ([noteSelectionStart]), release at [stop] ([noteSelectionEnd]); [now]
    is [Date.now()]. *)
Definition noteMouseUp (now : Z) (start stop : point) (u : note_ui) : note_ui :=
  let dx := abs (px stop - px start) in
  let dy := abs (py stop - py start) in
  let isClick := (dx <? 0.05) && (dy <? 0.05) in
  if isClick then
    match find (fun n => hypot (svgX n - px start) (svgY n - py start) <? clickRadius)
               (notes u) with
    | Some existingNote =>
        {| notes := notes u; editingNote := Some existingNote;
           selectedNotes := selectedNotes u |}
    | None =>
        let newNote := {| note_id := now; svgX := px start; svgY := py start;
                          text := EmptyString |} in
        {| notes := notes u ++ [newNote]; editingNote := editingNote u;
           selectedNotes := selectedNotes u |}
    end
  else
    let minX := js_min (px start) (px stop) in
    let maxX := js_max (px start) (px stop) in
    let minY := js_min (py start) (py stop) in
    let maxY := js_max (py start) (py stop) in
    {| notes := notes u; editingNote := editingNote u;
       selectedNotes :=
         note_id <$> filter (fun n => (minX <=? svgX n) && (svgX n <=? maxX) &&
                                      (minY <=? svgY n) && (svgY n <=? maxY) = true)
                            (notes u) |}.

(** updateNote(id, text): [prev.map(n => n.id === id ? { ...n, text } : n)]. *)
Definition updateNote (id : Z) (t : string) (prev : list note) : list note :=
  map (fun n => if Z.eqb (note_id n) id
                then {| note_id := note_id n; svgX := svgX n; svgY := svgY n; text := t |}
                else n) prev.

(** deleteNote(id): [prev.filter(n => n.id !== id)]. *)
Definition deleteNote (id : Z) (prev : list note) : list note :=
  List.filter (fun n => negb (Z.eqb (note_id n) id)) prev.

(** The Delete-key branch of the window keydown handler ([isAddingNote] is
    note mode): the notes whose id is selected are removed and the
    selection is emptied, when something is selected. *)
Definition deleteKey (isAddingNote : bool) (u : note_ui) : note_ui :=
  if isAddingNote then
    match selectedNotes u with
    | [] => u
    | sel => {| notes := List.filter (fun n => negb (existsb (Z.eqb (note_id n)) sel)) (notes u);
                editingNote := editingNote u; selectedNotes := [] |}
    end
  else u.

End Notes.

(* ------------------------------------------------------------------ *)
(** ** The counter-based box selection of the earlier revision
    (src/unnamed/part_000) *)

Module Part000.
Import Geometry Handlers.
Local Open Scope float_scope.

(** isPanelInSelection of part_000: the centroid of all the vertices of
    the feature (closing vertex included) lies in the rectangle. *)
Definition isPanelInSelection000 (features : list (list (float * float))) (b : option bounds)
    (w h : float) (panelIndex : nat) (selStart selEnd : point) : bool :=
  match features !! panelIndex with
  | None => false
  | Some coords =>
      let minX := js_min (px selStart) (px selEnd) in
      let maxX := js_max (px selStart) (px selEnd) in
      let minY := js_min (py selStart) (py selEnd) in
      let maxY := js_max (py selStart) (py selEnd) in
      let c := centroid (map (fun c => toSvgCoords b w h c.1 c.2) coords) in
      (minX <=? px c) && (px c <=? maxX) && (minY <=? py c) && (py c <=? maxY)
  end.

(** The panel states, history and [selectionCount] of part_000. *)
Record state000 := { st : app_state; selectionCount : nat }.

(** applySelection of part_000: nothing happens when no panel is selected;
    otherwise the count advances, every selected panel gets the same value
    on both ends (MC4_INSTALLED on an odd count, TERMINATED on an even one,
    cleared when the count is a multiple of 3, which resets it to 0) and
    one snapshot is pushed. *)
Definition applySelection000 (sc : scene) (selStart selEnd : point) (s : state000) : state000 :=
  let selectedIndices :=
    List.filter (fun i => isPanelInSelection000 (features sc) (sceneBounds sc) (canvasW sc)
                            (canvasH sc) i selStart selEnd)
                (seq 0 (length (features sc))) in
  match selectedIndices with
  | [] => s
  | _ =>
      let newCount := (selectionCount s + 1)%nat in
      let newState := if Nat.odd newCount then Some MC4_INSTALLED else Some TERMINATED in
      let shouldClear := Nat.eqb (newCount mod 3) 0 in
      let newStates :=
        foldl (fun m i => <[i := if shouldClear then {| left_st := None; right_st := None |}
                                 else {| left_st := newState; right_st := newState |}]> m)
              (panelStates (st s)) selectedIndices in
      {| st := push newStates (st s); selectionCount := if shouldClear then 0%nat else newCount |}
  end.

End Part000.

(* ------------------------------------------------------------------ *)
(** ** Specification-side notions *)

(** The rectangle test of the drag branch of handleMouseUp in note mode:
    the note lies in the rectangle spanned by [start] and [stop]. *)
Module NoteBox.
Import Geometry Notes.
Local Open Scope float_scope.

Definition in_note_box (start stop : point) (n : note) : bool :=
  let minX := js_min (px start) (px stop) in
  let maxX := js_max (px start) (px stop) in
  let minY := js_min (py start) (py stop) in
  let maxY := js_max (py start) (py stop) in
  (minX <=? svgX n) && (svgX n <=? maxX) && (minY <=? svgY n) && (svgY n <=? maxY).

End NoteBox.

(** The number of ends of panels [0 .. n-1] satisfying [done_]: the ends
    are read as [panelStates[i]?.left] / [.right]. *)
Definition Zsum (f : nat -> Z) (l : list nat) : Z := fold_right (fun i acc => f i + acc)%Z 0%Z l.

Definition ends_done (done_ : option end_state -> Z) (n : nat) (m : panel_states) : Z :=
  Zsum (fun i => done_ (get_side (m !! i) SideLeft) + done_ (get_side (m !! i) SideRight))%Z
       (seq 0 n).

(** Every key of the mapping is the index of a loaded feature. *)
Definition keys_below (n : nat) (m : panel_states) : Prop :=
  forall i, is_Some (m !! i) -> i < n.

(** The state that shows snapshot [i] of [h] as current. *)
Definition at_index (h : list panel_states) (i : nat) : app_state :=
  {| panelStates := default ∅ (h !! i); history := h; historyIndex := i |}.

(** The history invariant: the index is in range and the current mapping
    is the snapshot at the index. *)
Definition history_wf (s : app_state) : Prop :=
  historyIndex s < length (history s) /\ history s !! historyIndex s = Some (panelStates s).

(** [k] mutations, each pushing one snapshot. *)
Definition pushes (snaps : list panel_states) (s : app_state) : app_state :=
  foldl (fun st m => push m st) s snaps.

(** The invariant of the reachable states: [history_wf], and every
    snapshot only has loaded panels as keys. *)
Definition app_inv (n : nat) (s : app_state) : Prop :=
  history_wf s /\ Forall (keys_below n) (history s).

(* ------------------------------------------------------------------ *)
(** ** Concrete inputs *)

Module Demo.
Import Geometry Handlers Notes.
Local Open Scope float_scope.

(** Three 10 x 2 rectangles, closed, in a box that maps one degree to one
    canvas unit. *)
Definition scene3 : scene :=
  {| features := [ [(10,10); (20,10); (20,12); (10,12); (10,10)];
                   [(30,10); (40,10); (40,12); (30,12); (30,10)];
                   [(50,10); (60,10); (60,12); (50,12); (50,10)] ];
     sceneBounds := Some {| minLng := 0; maxLng := 1200; minLat := 0; maxLat := 900 |};
     canvasW := 1200; canvasH := 900 |}.

(** A canvas point next to the left end of panel 0. *)
Definition near_left0 : point := {| px := 11; py := 889 |}.


(** Two loaded points of the same longitude [3 * 2^44]; the doubles there
    are [2^-7] apart, so adding or subtracting the padding [0.001] gives
    the longitude back. *)
Definition big_line : list (float * float) :=
  [(52776558133248, 10); (52776558133248, 12)].

(** A canvas point next to the right end of panel 0. *)
Definition near_right0 : point := {| px := 19; py := 889 |}.

(** The corners of a drag rectangle covering the whole canvas. *)
Definition canvas_origin : point := {| px := 0; py := 0 |}.
Definition canvas_corner : point := {| px := 1200; py := 900 |}.

(** One plain left click at [p] on panel [i]. *)
Definition click (i : nat) (p : point) (s : app_state) : app_state :=
  handleMouseUp scene3 (Some i) p p false s.

(** A feature of a single vertex. *)
Definition point_feature : list (float * float) := [(70,10)].

(** [scene3] with [point_feature] as a fourth feature. *)
Definition scene_with_point : scene :=
  {| features := features scene3 ++ [point_feature];
     sceneBounds := sceneBounds scene3; canvasW := 1200; canvasH := 900 |}.





(** One note at canvas point (100, 100). *)
Definition note_a : note := {| note_id := 1; svgX := 100; svgY := 100; text := EmptyString |}.

Definition ui_one_note : note_ui :=
  {| notes := [note_a]; editingNote := None; selectedNotes := [] |}.

Definition near_note : point := {| px := 102; py := 101 |}.

(** Three notes: two near (100, 100) and one at (150, 100). *)
Definition ui_three_notes : note_ui :=
  {| notes := [note_a;
               {| note_id := 2; svgX := 150; svgY := 100; text := EmptyString |};
               {| note_id := 3; svgX := 105; svgY := 95; text := EmptyString |}];
     editingNote := None; selectedNotes := [] |}.
Definition away_from_note : point := {| px := 150; py := 100 |}.

(** Panel 0 with both ends TERMINATED, after two clicks on each end. *)
Definition both_terminated : app_state :=
  click 0 near_right0 (click 0 near_right0 (click 0 near_left0 (click 0 near_left0 init_state))).

End Demo.

(** A binary64 value that is NaN or infinite. *)
Definition non_finite_sf (f : spec_float) : Prop :=
  f = S754_nan \/ exists s, f = S754_infinity s.

(** Binary64 values as the Standard Library's [spec_float]: an integer key
    that orders the non-NaN values, and the shapes of rounded results. *)
Module FloatKey.
Local Open Scope Z_scope.









End FloatKey.

(* ================================================================== *)
(** * Lemmas *)

Module HistoryFacts.

Lemma wf_at_index s : history_wf s -> s = at_index (history s) (historyIndex s).
Proof.
  intros [_ Hl]. destruct s as [p h i]; unfold at_index; simpl in *.
  by rewrite Hl.
Qed.

Lemma at_index_wf h i : i < length h -> history_wf (at_index h i).
Proof.
  intros Hi. unfold history_wf, at_index; simpl. split; [done|].
  destruct (lookup_lt_is_Some_2 h i Hi) as [x Hx]. by rewrite Hx.
Qed.

Lemma push_fields m s :
  history_wf s ->
  history (push m s) = take (historyIndex s + 1) (history s) ++ [m] /\
  historyIndex (push m s) = historyIndex s + 1 /\
  length (history (push m s)) = historyIndex s + 2 /\
  panelStates (push m s) = m.
Proof.
  intros [Hi _]. unfold push; simpl.
  rewrite length_app, length_take_le by lia; simpl. repeat split; lia.
Qed.

Lemma push_wf m s : history_wf s -> history_wf (push m s).
Proof.
  intros Hwf. destruct (push_fields m s Hwf) as (Hh & Hx & Hl & Hp).
  destruct Hwf as [Hi _]. split.
  - rewrite Hx, Hl. lia.
  - rewrite Hh, Hx, Hp, lookup_app_r by (rewrite length_take_le; lia).
    rewrite length_take_le by lia. by replace (_ - _) with 0 by lia.
Qed.

Lemma undo_at_index h i : 0 < i -> undo (at_index h i) = at_index h (i - 1).
Proof.
  intros Hi. unfold undo, at_index; simpl.
  by destruct (Nat.ltb_spec 0 i); [|lia].
Qed.

Lemma redo_at_index h i : i + 1 < length h -> redo (at_index h i) = at_index h (i + 1).
Proof.
  intros Hi. unfold redo, at_index; simpl.
  by destruct (Nat.ltb_spec i (length h - 1)); [|lia].
Qed.

Lemma undo_wf s : history_wf s -> history_wf (undo s).
Proof.
  intros Hwf. rewrite (wf_at_index s Hwf). destruct Hwf as [Hi _].
  destruct (decide (historyIndex s = 0)) as [E|E].
  - rewrite E. unfold undo; simpl. apply at_index_wf. lia.
  - rewrite undo_at_index by lia. apply at_index_wf. lia.
Qed.

Lemma redo_wf s : history_wf s -> history_wf (redo s).
Proof.
  intros Hwf. rewrite (wf_at_index s Hwf). destruct Hwf as [Hi _].
  destruct (decide (historyIndex s + 1 < length (history s))) as [E|E].
  - rewrite redo_at_index by lia. apply at_index_wf. lia.
  - unfold redo; simpl. destruct (Nat.ltb_spec (historyIndex s) (length (history s) - 1));
      [lia|]. apply at_index_wf. lia.
Qed.

Lemma iter_undo h i j :
  j <= i -> Nat.iter j undo (at_index h i) = at_index h (i - j).
Proof.
  induction j as [|j IH]; intros Hj; simpl.
  - by rewrite Nat.sub_0_r.
  - rewrite IH by lia. rewrite undo_at_index by lia. f_equal. lia.
Qed.

Lemma iter_redo h i j :
  i + j < length h -> Nat.iter j redo (at_index h i) = at_index h (i + j).
Proof.
  induction j as [|j IH]; intros Hj; simpl.
  - by rewrite Nat.add_0_r.
  - rewrite IH by lia. rewrite redo_at_index by lia. f_equal. lia.
Qed.

Lemma pushes_wf snaps s :
  history_wf s ->
  history_wf (pushes snaps s) /\
  historyIndex (pushes snaps s) = historyIndex s + length snaps.
Proof.
  revert s. induction snaps as [|m snaps IH]; intros s Hwf; simpl.
  - split; [done|lia].
  - destruct (IH (push m s) (push_wf m s Hwf)) as [H1 H2]. split; [done|].
    rewrite H2. destruct (push_fields m s Hwf) as (_ & -> & _). lia.
Qed.

Lemma redo_after_push m s : redo (push m s) = push m s.
Proof.
  unfold redo, push; simpl.
  destruct (Nat.ltb_spec (length (take (historyIndex s + 1) (history s) ++ [m]) - 1)
              (length (take (historyIndex s + 1) (history s) ++ [m]) - 1)); [lia|done].
Qed.

End HistoryFacts.

Module SelectionFacts.

Lemma selection_loop_lookup inSel u prev l acc i :
  (foldl (selection_body inSel u prev) acc l).1 !! i =
  if decide (i ∈ l /\ inSel i = true) then Some (select_entry u (prev !! i))
  else acc.1 !! i.
Proof.
  induction l as [|a l IH] in acc |- *; cbn [foldl].
  - destruct (decide _) as [[H _]|]; [set_solver|done].
  - rewrite IH. unfold selection_body.
    destruct (decide (i ∈ a :: l /\ inSel i = true)) as [H2|H2];
      destruct (decide (i ∈ l /\ inSel i = true)) as [H1|H1]; try done.
    + destruct H2 as [Hin Hs]. apply elem_of_cons in Hin as [->|Hin]; [|exfalso; by apply H1].
      rewrite Hs. apply lookup_insert_eq.
    + exfalso. apply H2. split; [set_solver|apply H1].
    + destruct (inSel a) eqn:Ha; [|done]. cbn [fst].
      rewrite lookup_insert_ne; [done|]. intros ->. apply H2. split; [set_solver|done].
Qed.

Lemma selection_loop_any inSel u prev l acc :
  (foldl (selection_body inSel u prev) acc l).2 = acc.2 || existsb inSel l.
Proof.
  induction l as [|a l IH] in acc |- *; simpl.
  - by rewrite orb_false_r.
  - rewrite IH. unfold selection_body. destruct (inSel a); simpl.
    + by rewrite orb_true_r.
    + done.
Qed.

Lemma apply_selection_lookup inSel u n prev i :
  (apply_selection_states inSel u n prev).1 !! i =
  if decide (i < n /\ inSel i = true) then Some (select_entry u (prev !! i))
  else prev !! i.
Proof.
  unfold apply_selection_states. rewrite selection_loop_lookup; simpl.
  destruct (decide (i ∈ seq 0 n /\ inSel i = true)) as [H|H];
    destruct (decide (i < n /\ inSel i = true)) as [H'|H']; try done; exfalso.
  - destruct H as [Hin Hs]. rewrite elem_of_seq in Hin. apply H'. split; [lia|done].
  - destruct H' as [Hin Hs]. apply H. split; [apply elem_of_seq; lia|done].
Qed.

Lemma apply_selection_none inSel u n prev :
  (apply_selection_states inSel u n prev).2 = false ->
  (apply_selection_states inSel u n prev).1 = prev.
Proof.
  intros Hany. apply map_eq. intros i. rewrite apply_selection_lookup.
  destruct (decide (i < n /\ inSel i = true)) as [[Hi Hs]|]; [|done].
  unfold apply_selection_states in Hany. rewrite selection_loop_any in Hany; simpl in Hany.
  exfalso. assert (existsb inSel (seq 0 n) = true) as Hex.
  { apply existsb_exists. exists i. split; [apply in_seq; lia|done]. }
  congruence.
Qed.

Lemma apply_selection_keys inSel u n prev :
  keys_below n prev -> keys_below n (apply_selection_states inSel u n prev).1.
Proof.
  intros Hk i Hs. rewrite apply_selection_lookup in Hs.
  destruct (decide (i < n /\ inSel i = true)) as [[Hi _]|]; [done|]. by apply Hk.
Qed.

End SelectionFacts.

Module ReachFacts.
Import Geometry Handlers HistoryFacts SelectionFacts.

Lemma keys_below_empty n : keys_below n ∅.
Proof. intros i [x Hx]. by rewrite lookup_empty in Hx. Qed.

Lemma keys_below_insert n m i x : i < n -> keys_below n m -> keys_below n (<[i:=x]> m).
Proof.
  intros Hi Hk j Hs. destruct (decide (i = j)) as [->|Hne]; [done|].
  rewrite lookup_insert_ne in Hs by done. by apply Hk.
Qed.

Lemma inv_current n s : app_inv n s -> keys_below n (panelStates s).
Proof. intros [[_ Hl] Hf]. by eapply Forall_lookup_1. Qed.

Lemma push_inv n m s : app_inv n s -> keys_below n m -> app_inv n (push m s).
Proof.
  intros [Hwf Hf] Hk. split; [by apply push_wf|].
  destruct (push_fields m s Hwf) as (-> & _). apply Forall_app. split.
  - by apply Forall_take.
  - by constructor.
Qed.

Lemma undo_history s : history (undo s) = history s.
Proof. unfold undo. by destruct (0 <? historyIndex s). Qed.

Lemma redo_history s : history (redo s) = history s.
Proof. unfold redo. by destruct (historyIndex s <? length (history s) - 1). Qed.

Lemma undo_inv n s : app_inv n s -> app_inv n (undo s).
Proof. intros [Hwf Hf]. split; [by apply undo_wf|]. by rewrite undo_history. Qed.

Lemma redo_inv n s : app_inv n s -> app_inv n (redo s).
Proof. intros [Hwf Hf]. split; [by apply redo_wf|]. by rewrite redo_history. Qed.

Lemma applySelection_inv sc selStart selEnd u s :
  app_inv (length (features sc)) s ->
  app_inv (length (features sc)) (applySelection sc selStart selEnd u s).
Proof.
  intros Hinv. unfold applySelection.
  destruct (_ && _); [done|].
  destruct (apply_selection_states _ _ _ _) as [ns any] eqn:E.
  pose proof (apply_selection_keys
    (fun i => isPanelInSelection (features sc) (sceneBounds sc) (canvasW sc) (canvasH sc)
                i selStart selEnd) u (length (features sc)) (panelStates s)
    (inv_current _ _ Hinv)) as Hk.
  rewrite E in Hk. destruct any.
  - by apply push_inv.
  - pose proof (apply_selection_none
      (fun i => isPanelInSelection (features sc) (sceneBounds sc) (canvasW sc) (canvasH sc)
                  i selStart selEnd) u (length (features sc)) (panelStates s)) as Hn.
    rewrite E in Hn. simpl in Hn. rewrite Hn by done. by destruct s.
Qed.

Lemma mouseUpPanelClick_inv sc i click s :
  i < length (features sc) ->
  app_inv (length (features sc)) s ->
  app_inv (length (features sc)) (mouseUpPanelClick sc i click s).
Proof.
  intros Hi Hinv. unfold mouseUpPanelClick.
  destruct (getPanelEnds _ _ _ _ _); [|done].
  apply push_inv; [done|]. unfold mouse_up_click_states.
  apply keys_below_insert; [done|]. by apply inv_current.
Qed.

Lemma step_inv sc s s' :
  step sc s s' -> app_inv (length (features sc)) s -> app_inv (length (features sc)) s'.
Proof.
  intros Hs Hinv. destruct Hs as [s i coords selStart selEnd u Hc _|s selStart selEnd u|s|s].
  - unfold handleMouseUp. destruct (_ && _).
    + apply mouseUpPanelClick_inv; [|done]. by eapply lookup_lt_Some.
    + by apply applySelection_inv.
  - by apply applySelection_inv.
  - by apply undo_inv.
  - by apply redo_inv.
Qed.

Lemma init_inv n : app_inv n init_state.
Proof.
  split.
  - split; simpl; [lia|done].
  - constructor; [apply keys_below_empty|constructor].
Qed.

Lemma reachable_inv sc s : reachable sc s -> app_inv (length (features sc)) s.
Proof.
  unfold reachable. intros Hr.
  assert (forall s0, rtc (step sc) s0 s -> app_inv (length (features sc)) s0 ->
                     app_inv (length (features sc)) s) as Hgen.
  { clear Hr. intros s0 Hr0. induction Hr0 as [|x y z Hxy Hyz IH]; intros Hx; [done|].
    apply IH. by eapply step_inv. }
  apply (Hgen init_state Hr). apply init_inv.
Qed.

End ReachFacts.

Module CountFacts.

Lemma Zsum_ext (f g : nat -> Z) l : (forall j, j ∈ l -> f j = g j) -> Zsum f l = Zsum g l.
Proof.
  induction l as [|a l IH]; intros Hfg; simpl; [done|].
  rewrite (Hfg a) by set_solver. rewrite IH; [done|]. intros j Hj. apply Hfg. set_solver.
Qed.

Lemma Zsum_upd (f g : nat -> Z) l i :
  (forall j, j <> i -> f j = g j) -> NoDup l -> i ∈ l ->
  Zsum f l = (Zsum g l + (f i - g i))%Z.
Proof.
  intros Hfg. induction l as [|a l IH]; intros Hnd Hin; [set_solver|].
  apply NoDup_cons in Hnd as [Hna Hnd]. simpl.
  apply elem_of_cons in Hin as [->|Hin].
  - rewrite (Zsum_ext f g l); [lia|]. intros j Hj. apply Hfg. intros ->. done.
  - rewrite IH by done. rewrite (Hfg a); [lia|]. intros ->. done.
Qed.

Section Count.
Variable done_ : option end_state -> Z.
Hypothesis done_none : done_ None = 0%Z.

Lemma fold_count_ends n (m : panel_states) :
  keys_below n m ->
  map_fold (fun _ st acc => acc + done_ (left_st st) + done_ (right_st st))%Z 0%Z m =
  ends_done done_ n m.
Proof.
  unfold ends_done. revert m.
  refine (map_ind _ _ _).
  - intros _. rewrite map_fold_empty. symmetry.
    transitivity (Zsum (fun _ => 0%Z) (seq 0 n)).
    + apply Zsum_ext. intros j _. rewrite lookup_empty. simpl. rewrite done_none. lia.
    + clear. induction (seq 0 n); simpl; lia.
  - intros i x m Hi IH Hk.
    rewrite map_fold_insert_L; [|intros; lia|done].
    assert (i < n) as Hin by (apply Hk; rewrite lookup_insert_eq; eauto).
    rewrite IH.
    2:{ intros j Hj. apply Hk. destruct (decide (i = j)) as [->|Hne]; [by rewrite lookup_insert_eq; eauto|].
        by rewrite lookup_insert_ne. }
    symmetry. rewrite (Zsum_upd _ (fun j => done_ (get_side (m !! j) SideLeft) + done_ (get_side (m !! j) SideRight))%Z
               (seq 0 n) i).
    + cbv beta. rewrite lookup_insert_eq, Hi. simpl. rewrite done_none. lia.
    + intros j Hne. by rewrite lookup_insert_ne by congruence.
    + apply NoDup_seq.
    + apply elem_of_seq. lia.
Qed.
End Count.

Lemma mc4Completed_ends n m : keys_below n m -> mc4Completed m = ends_done mc4_done n m.
Proof. apply (fold_count_ends mc4_done eq_refl). Qed.

Lemma terminatedCompleted_ends n m :
  keys_below n m -> terminatedCompleted m = ends_done terminated_done n m.
Proof. apply (fold_count_ends terminated_done eq_refl). Qed.

End CountFacts.

Module FloatFacts.
Local Open Scope float_scope.

Lemma finite_shape x : is_finite x = true ->
  (exists s, Prim2SF x = S754_zero s) \/ (exists s m e, Prim2SF x = S754_finite s m e).
Proof.
  unfold is_finite. intros H. apply negb_true_iff, orb_false_iff in H as [Hn Hi].
  unfold Prim2SF. rewrite Hn. destruct (is_zero x); [left; eauto|]. rewrite Hi.
  destruct (Z.frexp x) as [r e]. destruct (shr_fexp _ _ _ _ _) as [sh e'].
  destruct (shr_m sh); eauto.
Qed.

(** A finite number minus itself is [+0]. *)
Lemma sub_self x : is_finite x = true -> x - x = 0.
Proof.
  intros Hf. apply Prim2SF_inj. rewrite sub_spec.
  destruct (finite_shape x Hf) as [[s Hs]|(s & m & e & Hs)]; rewrite Hs.
  - destruct s; reflexivity.
  - unfold SF64sub, SFsub. cbv zeta. rewrite Z.sub_diag. reflexivity.
Qed.

(** Any number minus itself is [+0] or NaN. *)
Lemma sub_self_shape m : Prim2SF (m - m) = S754_zero false \/ Prim2SF (m - m) = S754_nan.
Proof.
  rewrite sub_spec. unfold SF64sub, SFsub.
  destruct (Prim2SF m) as [s|s| |s mm e].
  - destruct s; left; reflexivity.
  - destruct s; right; reflexivity.
  - right; reflexivity.
  - left. cbv zeta. rewrite Z.sub_diag. reflexivity.
Qed.

Lemma div_by_zero_or_nan x y :
  Prim2SF y = S754_zero false \/ Prim2SF y = S754_nan -> non_finite_sf (Prim2SF (x / y)).
Proof.
  unfold non_finite_sf. rewrite div_spec. unfold SF64div, SFdiv.
  intros [H|H]; rewrite H; destruct (Prim2SF x); eauto.
Qed.

Lemma mul_non_finite x w : non_finite_sf (Prim2SF x) -> non_finite_sf (Prim2SF (x * w)).
Proof.
  unfold non_finite_sf. rewrite mul_spec. unfold SF64mul, SFmul.
  intros [H|[s H]]; rewrite H; destruct (Prim2SF w); eauto.
Qed.

Lemma not_finite_of r : non_finite_sf (Prim2SF r) -> is_finite r = false.
Proof.
  intros H. rewrite <- (SF2Prim_Prim2SF r). destruct H as [H|[s H]]; rewrite H.
  - reflexivity.
  - destruct s; reflexivity.
Qed.

(** With [maxLng = minLng], [x] is [(lng - minLng) / (maxLng - minLng) * w]
    with a denominator [+0] or NaN: never finite. *)
Lemma flat_lng_not_finite bd w h lng lat :
  Geometry.maxLng bd = Geometry.minLng bd ->
  is_finite (Geometry.px (Geometry.toSvgCoords (Some bd) w h lng lat)) = false.
Proof.
  intros H. simpl. rewrite H.
  apply not_finite_of, mul_non_finite, div_by_zero_or_nan, sub_self_shape.
Qed.

Lemma flat_lat_not_finite bd w h lng lat :
  Geometry.maxLat bd = Geometry.minLat bd ->
  is_finite (Geometry.py (Geometry.toSvgCoords (Some bd) w h lng lat)) = false.
Proof.
  intros H. simpl. rewrite H.
  apply not_finite_of, mul_non_finite, div_by_zero_or_nan, sub_self_shape.
Qed.

End FloatFacts.

Module FloatOrder.
Import FloatKey.
Local Open Scope Z_scope.

























Lemma valid_sign s m e :
  valid_binary (S754_finite s m e) = true -> valid_binary (S754_finite false m e) = true.
Proof. exact (fun H => H). Qed.

















Lemma is_infinity_sf x :
  is_infinity x = match Prim2SF x with S754_infinity _ => true | _ => false end.
Proof.
  unfold is_infinity. rewrite FloatAxioms.eqb_spec, abs_spec.
  replace (Prim2SF infinity) with (S754_infinity false) by reflexivity.
  destruct (Prim2SF x); reflexivity.
Qed.











Lemma finite_not_nan x : is_finite x = true -> is_nan x = false.
Proof. unfold is_finite. destruct (is_nan x); reflexivity || discriminate. Qed.

End FloatOrder.

Module SortFacts.
Import Geometry.




(** The stable insertion sort orders by a key when its comparator
    agrees with the order of the keys on the sorted elements. *)
Section Sorted.
Context {A : Type} (cmp : A -> A -> float) (k : A -> Z) (P : A -> Prop).
Hypothesis cmp_key : forall a b, P a -> P b -> (cmp a b <? 0)%float = (k a <? k b)%Z.


End Sorted.

End SortFacts.

Module PanelFacts.
Import Geometry FloatKey FloatOrder.
Local Open Scope float_scope.








End PanelFacts.

Module SkipFacts.
Import Geometry Handlers.

Lemma unique_short coords :
  length coords < 2 -> Forall (fun c => is_finite c.1 && is_finite c.2 = true) coords ->
  uniqueCoords coords = [].
Proof.
  intros Hl Hf. destruct coords as [|[a b] [|c cs]]; [reflexivity| |simpl in Hl; lia].
  apply Forall_cons in Hf as [Hab _]. apply andb_prop in Hab as [Ha Hb]. simpl in Ha, Hb.
  unfold uniqueCoords. simpl. rewrite !FloatFacts.sub_self by done. reflexivity.
Qed.

Lemma short_not_selected features b w h i coords selStart selEnd :
  features !! i = Some coords -> length coords < 2 ->
  Forall (fun c => is_finite c.1 && is_finite c.2 = true) coords ->
  isPanelInSelection features b w h i selStart selEnd = false.
Proof.
  intros Hi Hl Hf. unfold isPanelInSelection, getPanelEnds.
  rewrite Hi, unique_short by done. reflexivity.
Qed.

(** Panel [i] has no entry, in the current mapping or in any snapshot. *)
Lemma absent_push (i : nat) (m : panel_states) s :
  m !! i = None -> Forall (fun m0 : panel_states => m0 !! i = None) (history s) ->
  panelStates (push m s) !! i = None /\
  Forall (fun m0 : panel_states => m0 !! i = None) (history (push m s)).
Proof.
  intros Hm Hh. unfold push; simpl. split; [done|].
  apply Forall_app. split; [by apply Forall_take|by constructor].
Qed.

Lemma absent_step sc i coords s s' :
  features sc !! i = Some coords -> length coords < 2 ->
  Forall (fun c => is_finite c.1 && is_finite c.2 = true) coords ->
  step sc s s' ->
  panelStates s !! i = None -> Forall (fun m0 : panel_states => m0 !! i = None) (history s) ->
  panelStates s' !! i = None /\ Forall (fun m0 : panel_states => m0 !! i = None) (history s').
Proof.
  intros Hi Hl Hf Hs Hc Hh.
  assert (forall selStart selEnd u,
            panelStates (applySelection sc selStart selEnd u s) !! i = None /\
            Forall (fun m0 : panel_states => m0 !! i = None)
                   (history (applySelection sc selStart selEnd u s))) as Hsel.
  { intros selStart selEnd u. unfold applySelection. destruct (_ && _); [done|].
    pose proof (SelectionFacts.apply_selection_lookup
      (fun j => isPanelInSelection (features sc) (sceneBounds sc) (canvasW sc) (canvasH sc)
                  j selStart selEnd) u (length (features sc)) (panelStates s) i) as Hlk.
    rewrite decide_False in Hlk
      by (intros [_ Hin]; by rewrite (short_not_selected _ _ _ _ _ _ _ _ Hi Hl Hf) in Hin).
    rewrite Hc in Hlk.
    destruct (apply_selection_states _ _ _ _) as [ns []]; simpl in Hlk.
    - by apply absent_push.
    - done. }
  destruct Hs as [s j coords' selStart selEnd u Hj Hr|s selStart selEnd u|s|s].
  - unfold handleMouseUp. destruct (_ && _); [|apply Hsel].
    unfold mouseUpPanelClick. destruct (getPanelEnds _ _ _ _ _); [|done].
    apply absent_push; [|done]. unfold mouse_up_click_states.
    rewrite lookup_insert_ne; [done|]. intros ->. rewrite Hi in Hj. injection Hj as <-.
    unfold panel_renders in Hr. apply negb_true_iff, Nat.ltb_ge in Hr. lia.
  - apply Hsel.
  - unfold undo. destruct (0 <? historyIndex s); [|done]. simpl. split; [|done].
    destruct (history s !! (historyIndex s - 1)) as [m|] eqn:E; simpl; [|done].
    exact (Forall_lookup_1 _ _ _ _ Hh E).
  - unfold redo. destruct (_ <? _); [|done]. simpl. split; [|done].
    destruct (history s !! (historyIndex s + 1)) as [m|] eqn:E; simpl; [|done].
    exact (Forall_lookup_1 _ _ _ _ Hh E).
Qed.

Lemma absent_reachable sc i coords s :
  features sc !! i = Some coords -> length coords < 2 ->
  Forall (fun c => is_finite c.1 && is_finite c.2 = true) coords ->
  reachable sc s -> panelStates s !! i = None.
Proof.
  intros Hi Hl Hf Hr.
  assert (forall s0, rtc (step sc) s0 s -> panelStates s0 !! i = None ->
            Forall (fun m0 : panel_states => m0 !! i = None) (history s0) ->
            panelStates s !! i = None) as Hgen.
  { clear Hr. intros s0 Hr0. induction Hr0 as [|x y z Hxy Hyz IH]; intros Hc Hh; [done|].
    destruct (absent_step sc i coords x y Hi Hl Hf Hxy Hc Hh). by apply IH. }
  apply (Hgen init_state Hr); [done|]. repeat constructor.
Qed.

End SkipFacts.

(* ================================================================== *)
(** * Claims *)

Import Geometry Handlers Notes HistoryFacts SelectionFacts ReachFacts CountFacts.
#[local] Set Warnings "-inexact-float".

(** C1: on every state reachable from the initial one by mouse releases,
    undo and redo, [mc4.completed] is the number of panel ends (left or
    right, over the loaded panels) whose state is MC4_INSTALLED or
    TERMINATED, [termination.completed] the number whose state is
    TERMINATED, and for both counters [completed + remaining = total =
    2 * panelsData.features.length]. *)
Theorem counters_on_reachable (sc : scene) (s : app_state) :
  reachable sc s ->
  let n := length (features sc) in
  let c := counters n (panelStates s) in
  completed c.1 = ends_done mc4_done n (panelStates s) /\
  completed c.2 = ends_done terminated_done n (panelStates s) /\
  (completed c.1 + remaining c.1 = total c.1)%Z /\ total c.1 = (2 * Z.of_nat n)%Z /\
  (completed c.2 + remaining c.2 = total c.2)%Z /\ total c.2 = (2 * Z.of_nat n)%Z.
Proof.
  intros Hr n c. pose proof (inv_current _ _ (reachable_inv sc s Hr)) as Hk.
  unfold c, counters; simpl.
  rewrite (mc4Completed_ends n) by done. rewrite (terminatedCompleted_ends n) by done.
  repeat split; lia.
Qed.

(** C1 at a concrete state: three panels, one click on the left end of
    panel 0. *)
Lemma counters_on_reachable_witness :
  reachable Demo.scene3 (Demo.click 0 Demo.near_left0 init_state) /\
  counters 3 (panelStates (Demo.click 0 Demo.near_left0 init_state)) =
    ({| total := 6; completed := 1; remaining := 5 |},
     {| total := 6; completed := 0; remaining := 6 |}) /\
  (let n := length (features Demo.scene3) in
   let st := Demo.click 0 Demo.near_left0 init_state in
   let c := counters n (panelStates st) in
   completed c.1 = ends_done mc4_done n (panelStates st) /\
   completed c.2 = ends_done terminated_done n (panelStates st) /\
   (completed c.1 + remaining c.1 = total c.1)%Z /\ total c.1 = (2 * Z.of_nat n)%Z /\
   (completed c.2 + remaining c.2 = total c.2)%Z /\ total c.2 = (2 * Z.of_nat n)%Z).
Proof.
  assert (Hr : reachable Demo.scene3 (Demo.click 0 Demo.near_left0 init_state)).
  { unfold reachable. eapply rtc_l; [|apply rtc_refl].
    eapply (step_mouse_up_panel Demo.scene3 init_state 0
              [(10,10); (20,10); (20,12); (10,12); (10,10)]%float); reflexivity. }
  split; [exact Hr|]. split; [vm_compute; reflexivity|].
  exact (counters_on_reachable Demo.scene3 _ Hr).
Defined.

(** C4: the history starts as the single empty snapshot at index 0; on
    every reachable state the index is within [0, length - 1] and names
    the current mapping; [push] keeps the snapshots up to the index,
    appends the new one and moves the index onto it; [undo] does nothing
    at index 0 and otherwise steps back and restores that snapshot;
    [redo] does nothing at the last index and otherwise steps forward and
    restores that snapshot. *)
Theorem history_contract (sc : scene) (s : app_state) :
  reachable sc s ->
  init_state = {| panelStates := ∅; history := [∅]; historyIndex := 0 |} /\
  (historyIndex s < length (history s) /\
   history s !! historyIndex s = Some (panelStates s)) /\
  (forall m, history (push m s) = take (historyIndex s + 1) (history s) ++ [m] /\
             historyIndex (push m s) = length (history (push m s)) - 1 /\
             historyIndex (push m s) = historyIndex s + 1 /\
             panelStates (push m s) = m) /\
  (historyIndex s = 0 -> undo s = s) /\
  (0 < historyIndex s ->
     history (undo s) = history s /\ historyIndex (undo s) = historyIndex s - 1 /\
     history s !! (historyIndex s - 1) = Some (panelStates (undo s))) /\
  (historyIndex s = length (history s) - 1 -> redo s = s) /\
  (historyIndex s < length (history s) - 1 ->
     history (redo s) = history s /\ historyIndex (redo s) = historyIndex s + 1 /\
     history s !! (historyIndex s + 1) = Some (panelStates (redo s))).
Proof.
  intros Hr. split; [reflexivity|]. destruct (reachable_inv sc s Hr) as [Hwf _].
  pose proof Hwf as [Hi Hl]. split; [done|]. split.
  { intros m. destruct (push_fields m s Hwf) as (H1 & H2 & H3 & H4). repeat split; lia || done. }
  split.
  { intros H0. unfold undo. rewrite H0. done. }
  split.
  { intros Hpos. rewrite (wf_at_index s Hwf), undo_at_index by done. unfold at_index; simpl.
    repeat split. destruct (lookup_lt_is_Some_2 (history s) (historyIndex s - 1)) as [x Hx];
      [lia|]. by rewrite Hx. }
  split.
  { intros Hlast. unfold redo. rewrite Hlast. by rewrite Nat.ltb_irrefl. }
  intros Hlt. rewrite (wf_at_index s Hwf), redo_at_index by lia. unfold at_index; simpl.
  repeat split. destruct (lookup_lt_is_Some_2 (history s) (historyIndex s + 1)) as [x Hx];
    [lia|]. by rewrite Hx.
Qed.

(** C4 on the state after one click of the demo scene. *)
Lemma history_contract_witness :
  init_state = {| panelStates := ∅; history := [∅]; historyIndex := 0 |} /\
  reachable Demo.scene3 (Demo.click 0 Demo.near_left0 init_state) /\
  historyIndex (Demo.click 0 Demo.near_left0 init_state) = 1 /\
  ((historyIndex (Demo.click 0 Demo.near_left0 init_state) <
      length (history (Demo.click 0 Demo.near_left0 init_state)) /\
    history (Demo.click 0 Demo.near_left0 init_state)
      !! historyIndex (Demo.click 0 Demo.near_left0 init_state)
    = Some (panelStates (Demo.click 0 Demo.near_left0 init_state)))).
Proof.
  assert (Hr : reachable Demo.scene3 (Demo.click 0 Demo.near_left0 init_state)).
  { unfold reachable. eapply rtc_l; [|apply rtc_refl].
    eapply (step_mouse_up_panel Demo.scene3 init_state 0
              [(10,10); (20,10); (20,12); (10,12); (10,10)]%float); reflexivity. }
  split; [reflexivity|]. split; [exact Hr|]. split; [vm_compute; reflexivity|].
  exact (proj1 (proj2 (history_contract Demo.scene3 _ Hr))).
Defined.

(** C5: from any reachable state, after [k] mutations (each pushing one
    snapshot) the history holds at least [k + 1] snapshots, and [k] undos
    followed by [k] redos give back exactly that state; and a mutation
    made after an undo drops the redo tail, so a redo right after it
    changes nothing. *)
Theorem undo_redo_inverse (sc : scene) (s : app_state) (snaps : list panel_states) :
  reachable sc s ->
  length snaps <= length (history (pushes snaps s)) - 1 /\
  Nat.iter (length snaps) redo (Nat.iter (length snaps) undo (pushes snaps s)) =
    pushes snaps s /\
  (forall m, history (push m (undo s)) = take (historyIndex (undo s) + 1) (history s) ++ [m] /\
             redo (push m (undo s)) = push m (undo s)).
Proof.
  intros Hr. destruct (reachable_inv sc s Hr) as [Hwf _].
  destruct (pushes_wf snaps s Hwf) as [Hwf' Hidx].
  pose proof Hwf' as [Hi' _]. split; [lia|]. split.
  - rewrite (wf_at_index _ Hwf'). rewrite iter_undo by lia. rewrite iter_redo by lia.
    f_equal. lia.
  - intros m. split; [|apply redo_after_push].
    unfold push at 1. simpl. by rewrite undo_history.
Qed.

(** C5 from the demo click state with two more snapshots. *)
Lemma undo_redo_inverse_witness :
  reachable Demo.scene3 (Demo.click 0 Demo.near_left0 init_state) /\
  (let s := Demo.click 0 Demo.near_left0 init_state in
   let snaps := [∅; panelStates s] in
   length snaps <= length (history (pushes snaps s)) - 1 /\
   Nat.iter (length snaps) redo (Nat.iter (length snaps) undo (pushes snaps s)) =
     pushes snaps s /\
   (forall m, history (push m (undo s)) = take (historyIndex (undo s) + 1) (history s) ++ [m] /\
              redo (push m (undo s)) = push m (undo s))).
Proof.
  assert (Hr : reachable Demo.scene3 (Demo.click 0 Demo.near_left0 init_state)).
  { unfold reachable. eapply rtc_l; [|apply rtc_refl].
    eapply (step_mouse_up_panel Demo.scene3 init_state 0
              [(10,10); (20,10); (20,12); (10,12); (10,10)]%float); reflexivity. }
  split; [exact Hr|].
  exact (undo_redo_inverse Demo.scene3 _ _ Hr).
Defined.




(** C7 (counterexample): the bounds loaded from two points of longitude
    [3 * 2^44] have [minLng = maxLng]; at that longitude [x] is NaN and
    one degree east of it [x] is [+Infinity]: the ratio is not taken as
    0. *)
Lemma loaded_flat_box_not_guarded :
  exists bd, computeBounds Demo.big_line = Some bd /\ maxLng bd = minLng bd /\
    is_nan (px (toSvgCoords (Some bd) 1200 900 52776558133248 11)) = true /\
    px (toSvgCoords (Some bd) 1200 900 52776558133249 11) = infinity.
Proof. eexists. split; [reflexivity|]. repeat split; vm_compute; reflexivity. Qed.

(** C7 (as amended): the transform has no guard: a box of zero width
    gives a non-finite [x] (Infinity or NaN) for every input, one of zero
    height a non-finite [y]; the padding of 0.001 does not exclude such
    boxes, since the loader gives one for equal large longitudes; without
    bounds the transform returns (0, 0). *)
Theorem degenerate_box_unguarded :
  (forall bd w h lng lat,
     maxLng bd = minLng bd -> is_finite (px (toSvgCoords (Some bd) w h lng lat)) = false) /\
  (forall bd w h lng lat,
     maxLat bd = minLat bd -> is_finite (py (toSvgCoords (Some bd) w h lng lat)) = false) /\
  (exists bd, computeBounds Demo.big_line = Some bd /\ maxLng bd = minLng bd) /\
  (forall w h lng lat, toSvgCoords None w h lng lat = {| px := 0; py := 0 |}).
Proof.
  split; [|split; [|split]].
  - intros bd w h lng lat H. apply FloatFacts.flat_lng_not_finite, H.
  - intros bd w h lng lat H. apply FloatFacts.flat_lat_not_finite, H.
  - eexists. split; [reflexivity|]. vm_compute. reflexivity.
  - reflexivity.
Qed.

(** C7 (as amended) at the zero-width box loaded from [big_line]. *)
Lemma degenerate_box_unguarded_witness :
  exists bd, computeBounds Demo.big_line = Some bd /\
    is_finite (px (toSvgCoords (Some bd) 1200 900 10 11)) = false.
Proof.
  eexists. split; [reflexivity|].
  apply (proj1 degenerate_box_unguarded). vm_compute. reflexivity.
Defined.

(** C2 (evaluated at the failing input): after one click the left end of
    panel 0 is MC4_INSTALLED; a double click on it, which reaches the
    editor as two mouse releases, each running the single-click cycle,
    leaves it at NONE, whereas handlePanelClick with [e.detail = 2] (the
    handler that implements the fast-forward, attached to no element)
    would set it to TERMINATED. *)
Theorem double_click_on_mc4_end_clears_it :
  get_side (panelStates (Demo.click 0 Demo.near_left0 init_state) !! 0) SideLeft
    = Some MC4_INSTALLED /\
  get_side (panelStates (Demo.click 0 Demo.near_left0 (Demo.click 0 Demo.near_left0
              (Demo.click 0 Demo.near_left0 init_state))) !! 0) SideLeft = None /\
  get_side (panelStates (handlePanelClick 2 0 SideLeft
              (Demo.click 0 Demo.near_left0 init_state)) !! 0) SideLeft = Some TERMINATED.
Proof. split; [|split]; vm_compute; reflexivity. Qed.

(** C3 (counterexample): both ends of panel 0 are TERMINATED and a drag
    over the whole canvas selects the panel, yet after the select gesture
    both ends are still TERMINATED, not NONE as one more step of the
    click cycle would give. *)
Lemma box_select_keeps_terminated :
  panelStates Demo.both_terminated !! 0 =
    Some {| left_st := Some TERMINATED; right_st := Some TERMINATED |} /\
  isPanelInSelection (features Demo.scene3) (sceneBounds Demo.scene3) 1200 900 0
    Demo.canvas_origin Demo.canvas_corner = true /\
  panelStates (applySelection Demo.scene3 Demo.canvas_origin Demo.canvas_corner false
                 Demo.both_terminated) !! 0 =
    Some {| left_st := Some TERMINATED; right_st := Some TERMINATED |} /\
  click_cycle (Some TERMINATED) = None.
Proof. split; [|split; [|split]]; vm_compute; reflexivity. Qed.

(** C3 (as amended): for a drag that is not below the 0.05 threshold in
    both directions, every panel whose polygon meets the rectangle gets,
    on each end independently, [NONE -> MC4_INSTALLED],
    [MC4_INSTALLED -> TERMINATED], [TERMINATED -> TERMINATED] with the
    select gesture and [NONE] with the unselect gesture; every other panel
    keeps its entry. *)
Theorem box_selection_per_end (sc : scene) (selStart selEnd : point) (unselect : bool)
    (s : app_state) (i : nat) :
  ((abs (px selEnd - px selStart) <? 0.05) && (abs (py selEnd - py selStart) <? 0.05))%float
    = false ->
  (i < length (features sc) ->
   isPanelInSelection (features sc) (sceneBounds sc) (canvasW sc) (canvasH sc) i selStart selEnd
     = true ->
   forall sd, get_side (panelStates (applySelection sc selStart selEnd unselect s) !! i) sd =
              if unselect then None else select_forward (get_side (panelStates s !! i) sd)) /\
  (~ (i < length (features sc) /\
      isPanelInSelection (features sc) (sceneBounds sc) (canvasW sc) (canvasH sc) i
        selStart selEnd = true) ->
   panelStates (applySelection sc selStart selEnd unselect s) !! i = panelStates s !! i).
Proof.
  intros Hth.
  assert (panelStates (applySelection sc selStart selEnd unselect s) =
          (apply_selection_states
             (fun j => isPanelInSelection (features sc) (sceneBounds sc) (canvasW sc) (canvasH sc)
                         j selStart selEnd)
             unselect (length (features sc)) (panelStates s)).1) as Hps.
  { unfold applySelection. rewrite Hth.
    destruct (apply_selection_states _ _ _ _) as [ns []]; reflexivity. }
  rewrite Hps, apply_selection_lookup. split.
  - intros Hi Hs sd. rewrite decide_True by tauto.
    destruct unselect, sd; reflexivity.
  - intros Hn. by rewrite decide_False.
Qed.

(** C3 (as amended) at a drag over the whole canvas from the start state. *)
Lemma box_selection_per_end_witness :
  ((abs (px Demo.canvas_corner - px Demo.canvas_origin) <? 0.05) &&
   (abs (py Demo.canvas_corner - py Demo.canvas_origin) <? 0.05))%float = false /\
  0 < length (features Demo.scene3) /\
  isPanelInSelection (features Demo.scene3) (sceneBounds Demo.scene3) (canvasW Demo.scene3)
    (canvasH Demo.scene3) 0 Demo.canvas_origin Demo.canvas_corner = true /\
  get_side (panelStates (applySelection Demo.scene3 Demo.canvas_origin Demo.canvas_corner false
                           init_state) !! 0) SideLeft = Some MC4_INSTALLED.
Proof.
  assert (Hth : ((abs (px Demo.canvas_corner - px Demo.canvas_origin) <? 0.05) &&
                 (abs (py Demo.canvas_corner - py Demo.canvas_origin) <? 0.05))%float = false)
    by (vm_compute; reflexivity).
  assert (Hs : isPanelInSelection (features Demo.scene3) (sceneBounds Demo.scene3)
                 (canvasW Demo.scene3) (canvasH Demo.scene3) 0 Demo.canvas_origin
                 Demo.canvas_corner = true) by (vm_compute; reflexivity).
  split; [exact Hth|]. split; [simpl; lia|]. split; [exact Hs|].
  rewrite (proj1 (box_selection_per_end Demo.scene3 _ _ false init_state 0 Hth)
             ltac:(simpl; lia) Hs SideLeft).
  reflexivity.
Defined.

(** C8 (counterexample): in [scene_with_point] the fourth feature has a
    single vertex, so its Panel renders nothing, yet both totals count
    [2 * 4 = 8] ends while only three features render. *)
Lemma point_feature_counted :
  features Demo.scene_with_point !! 3 = Some Demo.point_feature /\
  panel_renders Demo.point_feature = false /\
  total (counters (length (features Demo.scene_with_point)) ∅).1 = 8%Z /\
  total (counters (length (features Demo.scene_with_point)) ∅).2 = 8%Z /\
  length (List.filter panel_renders (features Demo.scene_with_point)) = 3.
Proof. repeat split; vm_compute; reflexivity. Qed.

(** C8 (as amended): a feature with fewer than 2 coordinate pairs (of
    finite numbers) renders nothing, is selected by no drag rectangle and
    has no entry in the panel-state mapping of any reachable state, so
    neither of its ends is ever counted as completed; but it still counts
    two ends in [mc4.total] and [termination.total], which are both
    [2 * features.length]. *)
Theorem short_feature_skipped (sc : scene) (i : nat) (coords : list (float * float)) :
  features sc !! i = Some coords -> length coords < 2 ->
  Forall (fun c => is_finite c.1 && is_finite c.2 = true) coords ->
  panel_renders coords = false /\
  (forall selStart selEnd,
     isPanelInSelection (features sc) (sceneBounds sc) (canvasW sc) (canvasH sc) i
       selStart selEnd = false) /\
  (forall s, reachable sc s -> panelStates s !! i = None) /\
  (forall m, total (counters (length (features sc)) m).1 = (2 * Z.of_nat (length (features sc)))%Z /\
             total (counters (length (features sc)) m).2 = (2 * Z.of_nat (length (features sc)))%Z).
Proof.
  intros Hi Hl Hf. split; [|split; [|split]].
  - unfold panel_renders. apply negb_false_iff, Nat.ltb_lt. exact Hl.
  - intros selStart selEnd. by eapply SkipFacts.short_not_selected.
  - intros s Hr. by eapply SkipFacts.absent_reachable.
  - intros m. simpl. split; lia.
Qed.

(** C8 (as amended) at the single-vertex feature of [scene_with_point]. *)
Lemma short_feature_skipped_witness :
  features Demo.scene_with_point !! 3 = Some Demo.point_feature /\
  length Demo.point_feature < 2 /\
  panel_renders Demo.point_feature = false.
Proof.
  assert (Hi : features Demo.scene_with_point !! 3 = Some Demo.point_feature)
    by reflexivity.
  assert (Hl : length Demo.point_feature < 2) by (simpl; lia).
  assert (Hf : Forall (fun c => is_finite c.1 && is_finite c.2 = true) Demo.point_feature)
    by (repeat constructor).
  split; [exact Hi|]. split; [exact Hl|].
  exact (proj1 (short_feature_skipped Demo.scene_with_point 3 Demo.point_feature Hi Hl Hf)).
Defined.




(** C10: in note mode, for a release within 0.05 canvas units of the
    press at [start] (a click), if some note lies at distance below 5
    canvas units from [start], the first such note is opened in the editor
    and the note list is unchanged; if none does, one new note is appended
    at [start] itself, with id [now] and empty text, and (for finite
    coordinates) it is distinct from every existing note. *)
Theorem note_click_contract (now : Z) (start stop : point) (u : note_ui) :
  ((abs (px stop - px start) <? 0.05) && (abs (py stop - py start) <? 0.05))%float = true ->
  (forall n, List.find (fun n => hypot (svgX n - px start) (svgY n - py start) <? clickRadius)%float
               (notes u) = Some n ->
     notes (noteMouseUp now start stop u) = notes u /\
     editingNote (noteMouseUp now start stop u) = Some n /\
     In n (notes u) /\
     (hypot (svgX n - px start) (svgY n - py start) <? clickRadius)%float = true) /\
  ((forall n, In n (notes u) ->
      (hypot (svgX n - px start) (svgY n - py start) <? clickRadius)%float = false) ->
     notes (noteMouseUp now start stop u) =
       notes u ++ [{| note_id := now; svgX := px start; svgY := py start; text := EmptyString |}] /\
     (is_finite (px start) = true -> is_finite (py start) = true ->
      ~ In {| note_id := now; svgX := px start; svgY := py start; text := EmptyString |}
           (notes u))).
Proof.
  intros Hc. unfold noteMouseUp. rewrite Hc. split.
  - intros n Hf. rewrite Hf. split; [done|]. split; [done|].
    split; [by eapply find_some|]. by apply find_some in Hf as [_ Hf].
  - intros Hfar.
    destruct (List.find _ (notes u)) as [n|] eqn:Hf.
    + exfalso. apply find_some in Hf as [Hin Hlt]. by rewrite Hfar in Hlt.
    + split; [done|]. intros Hx Hy Hin. apply Hfar in Hin. simpl in Hin.
      rewrite !FloatFacts.sub_self in Hin by done. discriminate Hin.
Qed.

(** C10 at one note at (100, 100): a click at (102, 101) opens it, a click
    at (150, 100) appends a second note there. *)
Lemma note_click_contract_witness :
  editingNote (noteMouseUp 2 Demo.near_note Demo.near_note Demo.ui_one_note) =
    Some Demo.note_a /\
  notes (noteMouseUp 2 Demo.away_from_note Demo.away_from_note Demo.ui_one_note) =
    [Demo.note_a; {| note_id := 2; svgX := 150; svgY := 100; text := EmptyString |}].
Proof.
  split.
  - apply (note_click_contract 2 Demo.near_note Demo.near_note Demo.ui_one_note
             ltac:(vm_compute; reflexivity)).
    vm_compute. reflexivity.
  - apply (note_click_contract 2 Demo.away_from_note Demo.away_from_note Demo.ui_one_note
             ltac:(vm_compute; reflexivity)).
    intros n [<-|[]]. vm_compute. reflexivity.
Defined.

(* ================================================================== *)
(** * Further properties of the code *)

Module ExtraFacts.
Import Geometry Handlers HistoryFacts SelectionFacts.

(** A pushed snapshot is undone by one undo, and redone by one redo. *)
Lemma push_undo_redo m s :
  history_wf s ->
  panelStates (undo (push m s)) = panelStates s /\ redo (undo (push m s)) = push m s /\
  historyIndex (push m s) = historyIndex s + 1.
Proof.
  intros Hwf. pose proof (push_wf m s Hwf) as Hwf'.
  destruct (push_fields m s Hwf) as (Hh & Hx & Hl & _).
  pose proof Hwf as [Hi Hcur].
  rewrite (wf_at_index (push m s) Hwf').
  remember (history (push m s)) as h eqn:Eh. rewrite Hx.
  rewrite undo_at_index by lia. rewrite redo_at_index by lia.
  replace (historyIndex s + 1 - 1) with (historyIndex s) by lia.
  split; [|split; [reflexivity|reflexivity]].
  unfold at_index; cbn [panelStates]. rewrite Hh, lookup_app_l by (rewrite length_take_le; lia).
  rewrite lookup_take, decide_True by lia. by rewrite Hcur.
Qed.

(** The mapping after a box selection, read off apply_selection_states. *)
Lemma applySelection_states sc a b u s :
  panelStates (applySelection sc a b u s) =
  if ((abs (px b - px a) <? 0.05) && (abs (py b - py a) <? 0.05))%float then panelStates s
  else (apply_selection_states
          (fun i => isPanelInSelection (features sc) (sceneBounds sc) (canvasW sc) (canvasH sc)
                      i a b) u (length (features sc)) (panelStates s)).1.
Proof.
  unfold applySelection. destruct (_ && _); [done|].
  destruct (apply_selection_states _ _ _ _) as [ns []]; reflexivity.
Qed.

(** The threshold test does not depend on the state. *)
Lemma select_forward_twice v : select_forward (select_forward v) = Some TERMINATED.
Proof. by destruct v as [[]|]. Qed.

Lemma foldl_insert_notin (v : panel_state) (l : list nat) (m0 : panel_states) i :
  ~ In i l -> foldl (fun m j => <[j := v]> m) m0 l !! i = m0 !! i.
Proof.
  revert m0. induction l as [|x l IH]; intros m0 Hn; [done|]. simpl.
  rewrite IH by (intros H; apply Hn; by right).
  apply lookup_insert_ne. intros ->. apply Hn. by left.
Qed.

Lemma foldl_insert_in (v : panel_state) (l : list nat) (m0 : panel_states) i :
  In i l -> foldl (fun m j => <[j := v]> m) m0 l !! i = Some v.
Proof.
  revert m0. induction l as [|x l IH]; intros m0 Hin; [done|]. simpl.
  destruct (in_dec Nat.eq_dec i l) as [Hl|Hl]; [by apply IH|].
  destruct Hin as [->|Hin]; [|done].
  rewrite foldl_insert_notin by done. apply lookup_insert_eq.
Qed.

Lemma NoDup_map_eq {A B} (f : A -> B) (l : list A) a b :
  NoDup (map f l) -> In a l -> In b l -> f a = f b -> a = b.
Proof.
  induction l as [|x l IH]; simpl; [done|].
  intros Hnd Ha Hb Hf. apply NoDup_cons in Hnd as [Hx Hnd].
  destruct Ha as [<-|Ha], Hb as [<-|Hb]; auto.
  - exfalso. apply Hx. rewrite Hf. apply list_elem_of_In, in_map, Hb.
  - exfalso. apply Hx. rewrite <- Hf. apply list_elem_of_In, in_map, Ha.
Qed.

End ExtraFacts.

Import Part000.

(** A mouse release over the canvas (a panel click or a box selection,
    either gesture) either leaves the whole state as it was, or pushes
    exactly one snapshot: one undo then restores the previous mapping and
    a redo after it returns to the new state. *)
Theorem mouse_release_one_undo_step (sc : scene) (clickedPanel : option nat)
    (selStart selEnd : point) (unselect : bool) (s : app_state) :
  history_wf s ->
  handleMouseUp sc clickedPanel selStart selEnd unselect s = s \/
  (panelStates (undo (handleMouseUp sc clickedPanel selStart selEnd unselect s)) = panelStates s /\
   redo (undo (handleMouseUp sc clickedPanel selStart selEnd unselect s)) =
     handleMouseUp sc clickedPanel selStart selEnd unselect s /\
   historyIndex (handleMouseUp sc clickedPanel selStart selEnd unselect s) = historyIndex s + 1).
Proof.
  intros Hwf.
  assert (forall m, handleMouseUp sc clickedPanel selStart selEnd unselect s = push m s ->
            panelStates (undo (handleMouseUp sc clickedPanel selStart selEnd unselect s)) =
              panelStates s /\
            redo (undo (handleMouseUp sc clickedPanel selStart selEnd unselect s)) =
              handleMouseUp sc clickedPanel selStart selEnd unselect s /\
            historyIndex (handleMouseUp sc clickedPanel selStart selEnd unselect s) =
              historyIndex s + 1) as Hpush.
  { intros m ->. by apply ExtraFacts.push_undo_redo. }
  assert (applySelection sc selStart selEnd unselect s = s \/
          exists m, applySelection sc selStart selEnd unselect s = push m s) as Hsel.
  { unfold applySelection. destruct (_ && _); [by left|].
    destruct (apply_selection_states _ _ _ _) as [ns any] eqn:E. destruct any; [by right; eexists|].
    left. pose proof (apply_selection_none
      (fun i => isPanelInSelection (features sc) (sceneBounds sc) (canvasW sc) (canvasH sc)
                  i selStart selEnd) unselect (length (features sc)) (panelStates s)) as Hn.
    rewrite E in Hn. simpl in Hn. rewrite Hn by done. by destruct s. }
  assert (handleMouseUp sc clickedPanel selStart selEnd unselect s = s \/
          exists m, handleMouseUp sc clickedPanel selStart selEnd unselect s = push m s)
    as [Hs|[m Hm]].
  { unfold handleMouseUp. destruct clickedPanel as [i|]; [|exact Hsel].
    destruct (_ && _); [|exact Hsel]. unfold mouseUpPanelClick.
    destruct (getPanelEnds _ _ _ _ _); [by right; eexists|by left]. }
  - by left.
  - right. by apply (Hpush m).
Qed.

(** A click near the left end of panel 0 from the start state: one undo
    step, and the history index moves to 1. *)
Lemma mouse_release_one_undo_step_witness :
  history_wf init_state /\
  (Demo.click 0 Demo.near_left0 init_state = init_state \/
   (panelStates (undo (Demo.click 0 Demo.near_left0 init_state)) = panelStates init_state /\
    redo (undo (Demo.click 0 Demo.near_left0 init_state)) = Demo.click 0 Demo.near_left0 init_state /\
    historyIndex (Demo.click 0 Demo.near_left0 init_state) = historyIndex init_state + 1)).
Proof.
  assert (Hwf : history_wf init_state) by (split; simpl; [lia|reflexivity]).
  split; [exact Hwf|].
  exact (mouse_release_one_undo_step Demo.scene3 (Some 0) Demo.near_left0 Demo.near_left0 false
           init_state Hwf).
Defined.

(** A box selection that meets no loaded panel changes nothing: neither
    the mapping nor the history (no undo step is recorded). *)
Theorem selection_without_hit_is_noop (sc : scene) (selStart selEnd : point) (unselect : bool)
    (s : app_state) :
  (forall i, i < length (features sc) ->
     isPanelInSelection (features sc) (sceneBounds sc) (canvasW sc) (canvasH sc) i
       selStart selEnd = false) ->
  applySelection sc selStart selEnd unselect s = s.
Proof.
  intros Hno. unfold applySelection. destruct (_ && _); [done|].
  destruct (apply_selection_states _ _ _ _) as [ns any] eqn:E.
  pose proof (apply_selection_lookup
    (fun i => isPanelInSelection (features sc) (sceneBounds sc) (canvasW sc) (canvasH sc)
                i selStart selEnd) unselect (length (features sc)) (panelStates s)) as Hl.
  pose proof (SelectionFacts.selection_loop_any
    (fun i => isPanelInSelection (features sc) (sceneBounds sc) (canvasW sc) (canvasH sc)
                i selStart selEnd) unselect (panelStates s) (seq 0 (length (features sc)))
    (panelStates s, false)) as Ha.
  unfold apply_selection_states in E, Hl. rewrite E in Hl, Ha. simpl in Hl, Ha.
  assert (any = false) as ->.
  { rewrite Ha. apply not_true_is_false. intros Hex. apply existsb_exists in Hex as (i & Hi & Hs).
    apply in_seq in Hi. rewrite Hno in Hs by lia. discriminate. }
  assert (ns = panelStates s) as ->.
  { apply map_eq. intros i. rewrite Hl. destruct (decide _) as [[Hi Hs]|]; [|done].
    rewrite Hno in Hs by done. discriminate. }
  by destruct s.
Qed.

(** A drag over empty canvas: no panel of [scene3] meets the rectangle
    from (500, 100) to (600, 200). *)
Lemma selection_without_hit_is_noop_witness :
  applySelection Demo.scene3 {| px := 500; py := 100 |} {| px := 600; py := 200 |} false
    Demo.both_terminated = Demo.both_terminated.
Proof.
  apply selection_without_hit_is_noop. simpl. intros i Hi.
  destruct i as [|[|[|i]]]; [vm_compute; reflexivity..|lia].
Defined.

(** The unselect gesture is idempotent on the mapping: repeating the same
    unselect drag leaves the panel states as the first one left them. *)
Theorem unselect_idempotent (sc : scene) (selStart selEnd : point) (s : app_state) :
  panelStates (applySelection sc selStart selEnd true (applySelection sc selStart selEnd true s)) =
  panelStates (applySelection sc selStart selEnd true s).
Proof.
  rewrite !ExtraFacts.applySelection_states.
  destruct (_ && _); [done|].
  apply map_eq. intros i. rewrite !apply_selection_lookup.
  by destruct (decide _).
Qed.

(** Two select drags over the same rectangle (beyond the click threshold)
    leave both ends of every panel they meet TERMINATED, whatever the ends
    were before, and a third such drag no longer changes the mapping. *)
Theorem select_twice_terminates (sc : scene) (selStart selEnd : point) (s : app_state) (i : nat) :
  ((abs (px selEnd - px selStart) <? 0.05) && (abs (py selEnd - py selStart) <? 0.05))%float
    = false ->
  i < length (features sc) ->
  isPanelInSelection (features sc) (sceneBounds sc) (canvasW sc) (canvasH sc) i selStart selEnd
    = true ->
  panelStates (applySelection sc selStart selEnd false (applySelection sc selStart selEnd false s))
    !! i = Some {| left_st := Some TERMINATED; right_st := Some TERMINATED |} /\
  panelStates (applySelection sc selStart selEnd false
    (applySelection sc selStart selEnd false (applySelection sc selStart selEnd false s))) =
  panelStates (applySelection sc selStart selEnd false (applySelection sc selStart selEnd false s)).
Proof.
  intros Hth Hi Hs. rewrite !ExtraFacts.applySelection_states, Hth. split.
  - rewrite !apply_selection_lookup, decide_True by tauto. simpl.
    rewrite decide_True by tauto. simpl. by rewrite !ExtraFacts.select_forward_twice.
  - apply map_eq. intros j. rewrite !apply_selection_lookup.
    destruct (decide _) as [Hj|]; [|done]. simpl. by rewrite !ExtraFacts.select_forward_twice.
Qed.

(** Two select drags over the whole canvas of [scene3], from the start state. *)
Lemma select_twice_terminates_witness :
  panelStates (applySelection Demo.scene3 Demo.canvas_origin Demo.canvas_corner false
    (applySelection Demo.scene3 Demo.canvas_origin Demo.canvas_corner false init_state)) !! 0 =
    Some {| left_st := Some TERMINATED; right_st := Some TERMINATED |}.
Proof.
  apply (select_twice_terminates Demo.scene3 Demo.canvas_origin Demo.canvas_corner init_state 0);
    [vm_compute; reflexivity|simpl; lia|vm_compute; reflexivity].
Defined.

(** A click on a panel (the click branch of handleMouseUp) cycles only the
    end whose center is strictly nearer to the pressed point (the right
    end when both are at the same distance); the other end of the panel
    and every other panel keep their states. *)
Theorem panel_click_frame (sc : scene) (i : nat) (click : point) (s : app_state)
    (ends : panel_ends) :
  getPanelEnds (features sc) (sceneBounds sc) (canvasW sc) (canvasH sc) i = Some ends ->
  let sd := if (hypot (px click - px (end_left ends)) (py click - py (end_left ends)) <?
                hypot (px click - px (end_right ends)) (py click - py (end_right ends)))%float
            then SideLeft else SideRight in
  get_side (panelStates (mouseUpPanelClick sc i click s) !! i) sd =
    click_cycle (get_side (panelStates s !! i) sd) /\
  (forall sd', sd' <> sd ->
     get_side (panelStates (mouseUpPanelClick sc i click s) !! i) sd' =
     get_side (panelStates s !! i) sd') /\
  (forall j, j <> i -> panelStates (mouseUpPanelClick sc i click s) !! j = panelStates s !! j).
Proof.
  intros He sd. unfold mouseUpPanelClick. rewrite He. fold sd.
  unfold push, mouse_up_click_states; cbn [panelStates].
  rewrite lookup_insert_eq. split; [|split].
  - by destruct sd.
  - intros sd' Hne. destruct sd, sd'; done.
  - intros j Hj. by apply lookup_insert_ne.
Qed.

(** A click next to the left end of panel 0 of [scene3]. *)
Lemma panel_click_frame_witness :
  get_side (panelStates (mouseUpPanelClick Demo.scene3 0 Demo.near_left0 init_state) !! 0)
    SideRight = None.
Proof.
  destruct (getPanelEnds (features Demo.scene3) (sceneBounds Demo.scene3) (canvasW Demo.scene3)
              (canvasH Demo.scene3) 0) as [ends|] eqn:E; [|discriminate].
  destruct (panel_click_frame Demo.scene3 0 Demo.near_left0 init_state ends E) as (_ & H & _).
  assert (Hl : (hypot (px Demo.near_left0 - px (end_left ends)) (py Demo.near_left0 - py (end_left ends)) <?
                hypot (px Demo.near_left0 - px (end_right ends))
                      (py Demo.near_left0 - py (end_right ends)))%float = true).
  { vm_compute in E. injection E as <-. vm_compute. reflexivity. }
  rewrite Hl in H. rewrite (H SideRight) by discriminate. reflexivity.
Defined.

(** In the earlier revision (part_000), box selections drive one counter
    shared by all panels: from a count of 0, any three selections that
    each meet a panel (the same rectangle or not) set both its ends to
    MC4_INSTALLED, then TERMINATED, then clear them, whatever the panel's
    ends were, and the count is back at 0. *)
Theorem counter_selection_cycle (sc : scene) (a1 b1 a2 b2 a3 b3 : point) (s : state000) (i : nat) :
  selectionCount s = 0 ->
  i < length (features sc) ->
  isPanelInSelection000 (features sc) (sceneBounds sc) (canvasW sc) (canvasH sc) i a1 b1 = true ->
  isPanelInSelection000 (features sc) (sceneBounds sc) (canvasW sc) (canvasH sc) i a2 b2 = true ->
  isPanelInSelection000 (features sc) (sceneBounds sc) (canvasW sc) (canvasH sc) i a3 b3 = true ->
  panelStates (st (applySelection000 sc a1 b1 s)) !! i =
    Some {| left_st := Some MC4_INSTALLED; right_st := Some MC4_INSTALLED |} /\
  selectionCount (applySelection000 sc a1 b1 s) = 1 /\
  panelStates (st (applySelection000 sc a2 b2 (applySelection000 sc a1 b1 s))) !! i =
    Some {| left_st := Some TERMINATED; right_st := Some TERMINATED |} /\
  selectionCount (applySelection000 sc a2 b2 (applySelection000 sc a1 b1 s)) = 2 /\
  panelStates (st (applySelection000 sc a3 b3 (applySelection000 sc a2 b2
    (applySelection000 sc a1 b1 s)))) !! i =
    Some {| left_st := None; right_st := None |} /\
  selectionCount (applySelection000 sc a3 b3 (applySelection000 sc a2 b2
    (applySelection000 sc a1 b1 s))) = 0.
Proof.
  intros H0 Hi Hs1 Hs2 Hs3.
  assert (forall selStart selEnd s',
            isPanelInSelection000 (features sc) (sceneBounds sc) (canvasW sc) (canvasH sc) i
              selStart selEnd = true ->
            panelStates (st (applySelection000 sc selStart selEnd s')) !! i =
            Some (if Nat.eqb ((selectionCount s' + 1) mod 3) 0
                  then {| left_st := None; right_st := None |}
                  else {| left_st := if Nat.odd (selectionCount s' + 1) then Some MC4_INSTALLED
                                     else Some TERMINATED;
                          right_st := if Nat.odd (selectionCount s' + 1) then Some MC4_INSTALLED
                                      else Some TERMINATED |}) /\
            selectionCount (applySelection000 sc selStart selEnd s') =
              if Nat.eqb ((selectionCount s' + 1) mod 3) 0 then 0 else selectionCount s' + 1)
    as Hstep.
  { intros selStart selEnd s' Hs.
    assert (exists x xs,
              List.filter (fun j => isPanelInSelection000 (features sc) (sceneBounds sc)
                                      (canvasW sc) (canvasH sc) j selStart selEnd)
                          (seq 0 (length (features sc)))
                = x :: xs /\ In i (x :: xs)) as (x & xs & Hf & Hin).
    { assert (In i (List.filter (fun j => isPanelInSelection000 (features sc)
                          (sceneBounds sc) (canvasW sc) (canvasH sc) j selStart selEnd)
                          (seq 0 (length (features sc))))) as Hin.
      { apply filter_In. split; [apply in_seq; lia|done]. }
      destruct (List.filter _ _) as [|x xs]; [done|]. by exists x, xs. }
    unfold applySelection000. rewrite Hf. split; [|done].
    unfold push; cbn [st panelStates]. by apply ExtraFacts.foldl_insert_in. }
  destruct (Hstep a1 b1 s Hs1) as [A1 B1]. rewrite H0 in A1, B1. simpl in A1, B1.
  destruct (Hstep a2 b2 (applySelection000 sc a1 b1 s) Hs2) as [A2 B2].
  rewrite B1 in A2, B2. simpl in A2, B2.
  destruct (Hstep a3 b3 (applySelection000 sc a2 b2 (applySelection000 sc a1 b1 s)) Hs3)
    as [A3 B3].
  rewrite B2 in A3, B3. simpl in A3, B3.
  repeat split; assumption.
Qed.

(** In part_000 on [scene3], from the start state: a selection of the whole
    canvas, then a small box around the center of panel 0 only, then the whole
    canvas again. *)
Lemma counter_selection_cycle_witness :
  selectionCount (applySelection000 Demo.scene3 Demo.canvas_origin Demo.canvas_corner
    (applySelection000 Demo.scene3 {| px := 5; py := 880 |} {| px := 25; py := 895 |}
      (applySelection000 Demo.scene3 Demo.canvas_origin Demo.canvas_corner
         {| st := init_state; selectionCount := 0 |}))) = 0.
Proof.
  destruct (counter_selection_cycle Demo.scene3 Demo.canvas_origin Demo.canvas_corner
              {| px := 5; py := 880 |} {| px := 25; py := 895 |}
              Demo.canvas_origin Demo.canvas_corner
              {| st := init_state; selectionCount := 0 |} 0 eq_refl ltac:(simpl; lia)
              ltac:(vm_compute; reflexivity) ltac:(vm_compute; reflexivity)
              ltac:(vm_compute; reflexivity)) as (_ & _ & _ & _ & _ & H).
  exact H.
Defined.

Module NoteFacts.
Import Geometry Notes.

Lemma find_none_all {A} (f : A -> bool) (l : list A) :
  (forall x, In x l -> f x = false) -> List.find f l = None.
Proof.
  induction l as [|x l IH]; simpl; [done|]. intros Hf.
  rewrite (Hf x (or_introl eq_refl)). apply IH. intros y Hy. apply Hf. by right.
Qed.

Lemma updateNote_absent (id : Z) (t : string) (l : list note) :
  ~ In id (map note_id l) -> updateNote id t l = l.
Proof.
  induction l as [|n l IH]; simpl; [done|]. intros Hn.
  destruct (Z.eqb_spec (note_id n) id) as [He|_]; [exfalso; apply Hn; by left|].
  f_equal. apply IH. intros Hi. apply Hn. by right.
Qed.

Lemma deleteNote_absent (id : Z) (l : list note) :
  ~ In id (map note_id l) -> deleteNote id l = l.
Proof.
  induction l as [|n l IH]; simpl; [done|]. intros Hn.
  destruct (Z.eqb_spec (note_id n) id) as [He|_]; [exfalso; apply Hn; by left|].
  simpl. f_equal. apply IH. intros Hi. apply Hn. by right.
Qed.

(** The Delete key always keeps exactly the notes whose id is not selected. *)
Lemma deleteKey_notes (u : note_ui) :
  notes (deleteKey true u) =
    List.filter (fun n => negb (existsb (Z.eqb (note_id n)) (selectedNotes u))) (notes u).
Proof.
  unfold deleteKey. destruct (selectedNotes u) eqn:Hs; [|done].
  simpl. symmetry. by apply List.filter_true.
Qed.

End NoteFacts.

(** Editing a note only changes its text: every note keeps its id and
    position and its place in the list, the notes with that id get the
    new text, the others are unchanged; of two edits of the same note the
    last one wins, and deleting a note discards its edits. *)
Theorem updateNote_frame (id : Z) (t t' : string) (l : list note) :
  map (fun n => (note_id n, svgX n, svgY n)) (updateNote id t l) =
    map (fun n => (note_id n, svgX n, svgY n)) l /\
  (forall i n, l !! i = Some n ->
     updateNote id t l !! i =
       Some (if Z.eqb (note_id n) id
             then {| note_id := note_id n; svgX := svgX n; svgY := svgY n; text := t |}
             else n)) /\
  updateNote id t (updateNote id t' l) = updateNote id t l /\
  deleteNote id (updateNote id t l) = deleteNote id l.
Proof.
  split; [|split; [|split]].
  - unfold updateNote. rewrite map_map. apply map_ext. intros n.
    by destruct (Z.eqb (note_id n) id).
  - intros i n Hi. unfold updateNote. by rewrite list_lookup_fmap, Hi.
  - unfold updateNote. rewrite map_map. apply map_ext. intros n.
    destruct (Z.eqb (note_id n) id) eqn:He; simpl; by rewrite ?He.
  - induction l as [|n l IH]; simpl; [done|].
    destruct (Z.eqb (note_id n) id) eqn:He; simpl; rewrite He; simpl; by rewrite IH.
Qed.

(** A click far from every note creates a note at the click point; editing
    it appends exactly that note with the new text, and deleting it from
    the editor gives back the notes as they were (when no note had the new
    [Date.now()] id). *)
Theorem note_create_edit_delete (now : Z) (start stop : point) (t : string) (u : note_ui) :
  ((abs (px stop - px start) <? 0.05) && (abs (py stop - py start) <? 0.05))%float = true ->
  (forall n, In n (notes u) ->
     (hypot (svgX n - px start) (svgY n - py start) <? clickRadius)%float = false) ->
  ~ In now (map note_id (notes u)) ->
  updateNote now t (notes (noteMouseUp now start stop u)) =
    notes u ++ [{| note_id := now; svgX := px start; svgY := py start; text := t |}] /\
  deleteNote now (updateNote now t (notes (noteMouseUp now start stop u))) = notes u.
Proof.
  intros Hc Hfar Hnew. unfold noteMouseUp. rewrite Hc, NoteFacts.find_none_all by done.
  cbn [notes].
  assert (Hu : updateNote now t
                 (notes u ++ [{| note_id := now; svgX := px start; svgY := py start;
                                 text := EmptyString |}]) =
               notes u ++ [{| note_id := now; svgX := px start; svgY := py start; text := t |}]).
  { unfold updateNote. rewrite map_app. fold (updateNote now t (notes u)).
    rewrite NoteFacts.updateNote_absent by done. simpl. by rewrite Z.eqb_refl. }
  rewrite Hu. split; [done|].
  unfold deleteNote. rewrite List.filter_app. simpl. rewrite Z.eqb_refl. simpl.
  rewrite app_nil_r. by apply NoteFacts.deleteNote_absent.
Qed.

(** A click at (150, 100), away from the note at (100, 100), then an edit
    and a delete of the new note. *)
Lemma note_create_edit_delete_witness :
  deleteNote 2 (updateNote 2 "pole"%string
    (notes (noteMouseUp 2 Demo.away_from_note Demo.away_from_note Demo.ui_one_note))) =
    notes Demo.ui_one_note.
Proof.
  apply (note_create_edit_delete 2 Demo.away_from_note Demo.away_from_note "pole"%string
           Demo.ui_one_note ltac:(vm_compute; reflexivity)).
  - intros n [<-|[]]. vm_compute. reflexivity.
  - simpl. intros [H|[]]. discriminate H.
Defined.

(** After a drag in note mode, the Delete key removes exactly the notes
    inside the dragged box (the box test of the drag branch) and empties
    the selection, when note ids are distinct. *)
Theorem drag_then_delete (now : Z) (start stop : point) (u : note_ui) :
  ((abs (px stop - px start) <? 0.05) && (abs (py stop - py start) <? 0.05))%float = false ->
  NoDup (map note_id (notes u)) ->
  notes (deleteKey true (noteMouseUp now start stop u)) =
    List.filter (fun n => negb (NoteBox.in_note_box start stop n)) (notes u) /\
  selectedNotes (deleteKey true (noteMouseUp now start stop u)) = [].
Proof.
  intros Hc Hnd. split.
  - rewrite NoteFacts.deleteKey_notes. unfold noteMouseUp. rewrite Hc. cbn [notes selectedNotes].
    apply List.filter_ext_in. intros n Hn. f_equal.
    destruct (NoteBox.in_note_box start stop n) eqn:Hb.
    + apply existsb_exists. exists (note_id n). split; [|apply Z.eqb_refl].
      apply list_elem_of_In, list_elem_of_fmap. exists n. split; [done|].
      apply list_elem_of_filter. split; [exact Hb|]. by apply list_elem_of_In.
    + apply not_true_is_false. intros Hex. apply existsb_exists in Hex as [x [Hx Hxe]].
      apply Z.eqb_eq in Hxe. subst x.
      apply list_elem_of_In, list_elem_of_fmap in Hx as [m [Hm Hmin]].
      apply list_elem_of_filter in Hmin as [Hmb Hmin]. apply list_elem_of_In in Hmin.
      assert (m = n) as -> by (eapply ExtraFacts.NoDup_map_eq; eauto).
      change (NoteBox.in_note_box start stop n = true) in Hmb. congruence.
  - unfold deleteKey, noteMouseUp. rewrite Hc. cbn [selectedNotes].
    by destruct (note_id <$> _).
Qed.

(** Three notes with distinct ids; a drag from (90, 90) to (110, 110)
    covers the two near (100, 100), then Delete: only the note at
    (150, 100) is left. *)
Lemma drag_then_delete_witness :
  notes (deleteKey true (noteMouseUp 5 {| px := 90; py := 90 |} {| px := 110; py := 110 |}
                           Demo.ui_three_notes)) =
    [{| note_id := 2; svgX := 150; svgY := 100; text := EmptyString |}].
Proof.
  rewrite (proj1 (drag_then_delete 5 {| px := 90; py := 90 |} {| px := 110; py := 110 |}
                   Demo.ui_three_notes ltac:(vm_compute; reflexivity)
                   ltac:(simpl; apply (bool_decide_unpack _); reflexivity))).
  vm_compute. reflexivity.
Defined.
